(** * cesium_web: the feature-set handler

    A shallow embedding of [cesium_app/handlers/feature.py]: the request
    handler [FeatureHandler.post], which submits a featurization pipeline to
    the worker pool, and the detached coroutine
    [FeatureHandler._await_featurization], which reconciles the job record
    once the pipeline's future has resolved.

    Python objects live in a heap and are passed by reference, the
    persistence session is a unit of work that is flushed on commit, and every
    interaction with a collaborator (session, worker pool, notification
    channel, HTTP response, event loop) is appended to a trace, so that the
    order of the interactions can be stated. *)

From Stdlib Require Import ZArith Ascii String.
From stdpp Require Import gmap strings list pretty.

Local Open Scope string_scope.
Local Open Scope list_scope.
Local Open Scope stdpp_scope.

Set Warnings "-register-all".

(** ** Request data *)

(** The body of a request as [get_json] returns it: a JSON object, kept as the
    list of its items in order ([dict.items()]). Numbers are integers. *)
Inductive json :=
| JNull
| JBool (b : bool)
| JInt (z : Z)
| JStr (s : string)
| JList (l : list json)
| JDict (d : list (string * json)).

(** Truth value of a Python object, as [if] and [and] test it. *)
Definition truthy (v : json) : bool :=
  match v with
  | JNull => false
  | JBool b => b
  | JInt z => negb (Z.eqb z 0)
  | JStr s => negb (String.eqb s "")
  | JList l => match l with [] => false | _ => true end
  | JDict d => match d with [] => false | _ => true end
  end.

(** [d[k]] and [d.get(k)] find the item stored under [k]. *)
Fixpoint dict_lookup (k : string) (d : list (string * json)) : option json :=
  match d with
  | [] => None
  | (k', v) :: d' => if String.eqb k k' then Some v else dict_lookup k d'
  end.

Definition dict_get (d : list (string * json)) (k : string) (default : json) : json :=
  match dict_lookup k d with
  | Some v => v
  | None => default
  end.

(** ** Exceptions and results *)

(** The exceptions the statements of the handler raise themselves. *)
Inductive exn :=
| KeyError (key : string)
| ValueError
| TypeError
| AttributeError
| NoResultFound
| MultipleResultsFound
| AccessError (msg : string)
| InvalidRequestError.

Inductive Result (A : Type) :=
| Ok (a : A)
| Raise (e : exn).
Arguments Ok {A} a.
Arguments Raise {A} e.

(** What awaiting a failed future raises: an exception of the pipeline,
    known by its class and by the text [str(e)] gives. *)
Record failure := Failure { failure_class : string; failure_str : string }.

(** ** Values of the worker pool *)

(** A loaded time series: its label, and for each feature name the value the
    feature's computation yields on it, or the failure it ends in. *)
Record TimeSeries := {
  ts_label : string;
  ts_compute : string -> failure + Z
}.

(** A row of a feature table: one cell per feature, [None] for a missing
    value. *)
Definition FeatureRow := list (string * option Z).

Inductive Value :=
| VTimeSeries (ts : TimeSeries)
| VLabel (l : string)
| VFeatures (row : FeatureRow)
| VFeatureset (rows : list FeatureRow)
| VSaved (path : string) (rows : list FeatureRow) (labels : list string).

(** The outcome of a future, as [await] delivers it. *)
Inductive outcome :=
| Resolved (v : Value)
| Failed (e : failure).

(** ** Data model *)

(** [Featureset], the job record. [task_id] and [finished] are the columns
    the constructor call of [post] leaves unset. *)
Record Featureset := {
  name : json;
  file_uri : string;
  project : nat;
  features_list : list string;
  custom_features_script : option string;
  task_id : option string;
  finished : option Z
}.

Definition with_task_id (v : option string) (f : Featureset) : Featureset :=
  {| name := name f; file_uri := file_uri f; project := project f;
     features_list := features_list f;
     custom_features_script := custom_features_script f;
     task_id := v; finished := finished f |}.

Definition with_finished (v : option Z) (f : Featureset) : Featureset :=
  {| name := name f; file_uri := file_uri f; project := project f;
     features_list := features_list f;
     custom_features_script := custom_features_script f;
     task_id := task_id f; finished := v |}.

Record Dataset := {
  dataset_id : Z;
  dataset_project : nat;
  dataset_files : list string   (* the uri of each file *)
}.

Record User := {
  username : string;
  projects : list nat
}.

(** A [Featureset] object of the Python heap: the session it is attached to,
    its primary key once it has been flushed, and its attributes. *)
Record Obj := {
  o_session : option nat;
  o_id : option nat;
  o_val : Featureset
}.

#[global] Instance Obj_inhabited : Inhabited Obj :=
  populate {| o_session := None; o_id := None;
              o_val := {| name := JNull; file_uri := ""; project := 0;
                          features_list := [];
                          custom_features_script := None;
                          task_id := None; finished := None |} |}.

(** ** The worker pool *)

Inductive Fn :=
| time_series_load
| ts_label_of            (* lambda ts: ts.label *)
| featurize_single_ts
| assemble_featureset
| impute_featureset
| save_featureset.

Inductive Arg :=
| AFuture (key : string)
| AFutures (keys : list string)
| AStr (s : string)
| AStrs (l : list string)
| ABool (b : bool)
| ANone.

(** One task of the pool: the key of its future, the function, the
    positional and the keyword arguments. *)
Record Task := {
  t_key : string;
  t_fn : Fn;
  t_args : list Arg;
  t_kwargs : list (string * Arg)
}.

(** ** Responses and effects *)

Inductive Data :=
| DFeatureset (id : option nat) (f : Featureset)
| DList (l : list (nat * Featureset)).

Inductive Response :=
| RespSuccess (data : Data)
| RespError (message : string).

Inductive Effect :=
| E_add (session r : nat)
| E_merge (session r r' : nat)
| E_delete (session r : nat)
| E_commit (session : nat) (table : list (nat * Featureset))
| E_task (t : Task)
| E_action (user : string) (type : string) (payload : list (string * string))
| E_respond (resp : Response)
| E_spawn (future_key : string) (fset : nat)
| E_print (e : failure).

(** ** The world *)

(** What a session holds until the next commit. *)
Inductive Pending :=
| PNew (r : nat)
| PDirty (r : nat)
| PDelete (r : nat).

Record World := {
  heap : gmap nat Obj;              (* Python objects, by reference *)
  next_ref : nat;
  table : list (nat * Featureset);  (* the committed featuresets, by id *)
  next_id : nat;
  datasets : list Dataset;
  active : nat;                     (* the session [DBSession()] returns *)
  pending : list (nat * Pending);   (* unflushed work, with its session *)
  clock : Z;
  entropy : nat;                    (* random identifiers drawn so far *)
  pool_seq : nat;                   (* tasks the pool has accepted so far *)
  trace : list Effect
}.

Definition set_heap (h : gmap nat Obj) (w : World) : World :=
  {| heap := h; next_ref := next_ref w; table := table w;
     next_id := next_id w; datasets := datasets w; active := active w;
     pending := pending w; clock := clock w; entropy := entropy w;
     pool_seq := pool_seq w; trace := trace w |}.

Definition set_next_ref (n : nat) (w : World) : World :=
  {| heap := heap w; next_ref := n; table := table w;
     next_id := next_id w; datasets := datasets w; active := active w;
     pending := pending w; clock := clock w; entropy := entropy w;
     pool_seq := pool_seq w; trace := trace w |}.

Definition set_table (t : list (nat * Featureset)) (w : World) : World :=
  {| heap := heap w; next_ref := next_ref w; table := t;
     next_id := next_id w; datasets := datasets w; active := active w;
     pending := pending w; clock := clock w; entropy := entropy w;
     pool_seq := pool_seq w; trace := trace w |}.

Definition set_next_id (n : nat) (w : World) : World :=
  {| heap := heap w; next_ref := next_ref w; table := table w;
     next_id := n; datasets := datasets w; active := active w;
     pending := pending w; clock := clock w; entropy := entropy w;
     pool_seq := pool_seq w; trace := trace w |}.

Definition set_pending (p : list (nat * Pending)) (w : World) : World :=
  {| heap := heap w; next_ref := next_ref w; table := table w;
     next_id := next_id w; datasets := datasets w; active := active w;
     pending := p; clock := clock w; entropy := entropy w;
     pool_seq := pool_seq w; trace := trace w |}.

Definition set_entropy (n : nat) (w : World) : World :=
  {| heap := heap w; next_ref := next_ref w; table := table w;
     next_id := next_id w; datasets := datasets w; active := active w;
     pending := pending w; clock := clock w; entropy := n;
     pool_seq := pool_seq w; trace := trace w |}.

Definition set_pool_seq (n : nat) (w : World) : World :=
  {| heap := heap w; next_ref := next_ref w; table := table w;
     next_id := next_id w; datasets := datasets w; active := active w;
     pending := pending w; clock := clock w; entropy := entropy w;
     pool_seq := n; trace := trace w |}.

Definition set_trace (t : list Effect) (w : World) : World :=
  {| heap := heap w; next_ref := next_ref w; table := table w;
     next_id := next_id w; datasets := datasets w; active := active w;
     pending := pending w; clock := clock w; entropy := entropy w;
     pool_seq := pool_seq w; trace := t |}.

(** ** The monad of handler code: state, and exceptions that keep it *)

Definition M (A : Type) : Type := World -> Result A * World.

Definition ret {A} (a : A) : M A := fun w => (Ok a, w).

Definition bind {A B} (m : M A) (k : A -> M B) : M B :=
  fun w =>
    match m w with
    | (Ok a, w') => k a w'
    | (Raise e, w') => (Raise e, w')
    end.

Definition raise {A} (e : exn) : M A := fun w => (Raise e, w).

Definition lift {A} (r : Result A) : M A := fun w => (r, w).

Definition gets {A} (f : World -> A) : M A := fun w => (Ok (f w), w).

Definition modify (f : World -> World) : M unit := fun w => (Ok tt, f w).

Definition emit (e : Effect) : M unit :=
  modify (fun w => set_trace (trace w ++ [e]) w).

Declare Scope handler_scope.
Delimit Scope handler_scope with handler.
Notation "x <- m ;; k" := (bind m (fun x => k))
  (at level 100, m at next level, right associativity) : handler_scope.
Notation "m ;; k" := (bind m (fun _ => k))
  (at level 100, right associativity) : handler_scope.
Local Open Scope handler_scope.

Fixpoint for_each {A B} (f : A -> M B) (l : list A) : M (list B) :=
  match l with
  | [] => ret []
  | x :: l' => y <- f x ;; ys <- for_each f l' ;; ret (y :: ys)
  end.

(** ** The persistence boundary *)

(** Modelled from the spec: the session of the ORM ([DBSession], declared in
    the models module), with the operations the handler uses: create, attach
    ([merge]), [add], [delete] and [commit]. A session records work and
    applies it to the table on commit; an assignment to an attribute of an
    attached object marks the object dirty in its session. An object is
    attached to one session at most, and stays attached to it: a session
    other than its own has to [merge] it first. Faults of the database
    during a commit are not modelled. *)

Definition DBSession : M nat := gets active.

(** The constructor call [Featureset(...)]: a new transient object. *)
Definition Featureset_new (f : Featureset) : M nat :=
  fun w =>
    let r := next_ref w in
    (Ok r,
     set_next_ref (S r)
       (set_heap (<[r := {| o_session := None; o_id := None; o_val := f |}]> (heap w)) w)).

Definition getattr {A} (r : nat) (field : Featureset -> A) : M A :=
  gets (fun w => field (o_val (heap w !!! r))).

Definition setattr (r : nat) (f : Featureset -> Featureset) : M unit :=
  modify (fun w =>
    let o := heap w !!! r in
    let w' := set_heap (<[r := {| o_session := o_session o; o_id := o_id o;
                                  o_val := f (o_val o) |}]> (heap w)) w in
    match o_session o with
    | Some s => set_pending (pending w ++ [(s, PDirty r)]) w'
    | None => w'
    end).

Definition Session_add (s r : nat) : M unit :=
  modify (fun w =>
    let o := heap w !!! r in
    set_pending (pending w ++ [(s, PNew r)])
      (set_heap (<[r := {| o_session := Some s; o_id := o_id o;
                           o_val := o_val o |}]> (heap w)) w)) ;;
  emit (E_add s r).

(** [merge] returns the object itself when it is attached to [s] already,
    and otherwise a copy of its state that is attached to [s]. *)
Definition Session_merge (s r : nat) : M nat :=
  o <- gets (fun w => heap w !!! r) ;;
  if bool_decide (o_session o = Some s) then
    emit (E_merge s r r) ;; ret r
  else
    r' <- gets next_ref ;;
    modify (fun w =>
      set_next_ref (S r')
        (set_heap (<[r' := {| o_session := Some s; o_id := o_id o;
                              o_val := o_val o |}]> (heap w)) w)) ;;
    emit (E_merge s r r') ;;
    ret r'.

(** A session deletes the objects it holds, and takes a persistent object
    that no session holds; it refuses an object without a row, and an object
    that another session holds. *)
Definition deletable (s : nat) (o : Obj) : bool :=
  match o_id o, o_session o with
  | None, _ => false
  | Some _, Some s' => Nat.eqb s' s
  | Some _, None => true
  end.

(** [s.delete(r)]: the call is recorded, and the object is marked for
    deletion in [s], or the call raises [InvalidRequestError]. *)
Definition Session_delete (s r : nat) : M unit :=
  emit (E_delete s r) ;;
  o <- gets (fun w => heap w !!! r) ;;
  if deletable s o then
    modify (fun w => set_pending (pending w ++ [(s, PDelete r)]) w)
  else
    raise InvalidRequestError.

Definition table_lookup (id : nat) (t : list (nat * Featureset)) : option Featureset :=
  snd <$> List.find (fun row => Nat.eqb (fst row) id) t.

Definition table_update (id : nat) (f : Featureset) (t : list (nat * Featureset))
  : list (nat * Featureset) :=
  map (fun row => if Nat.eqb (fst row) id then (id, f) else row) t.

Definition table_delete (id : nat) (t : list (nat * Featureset))
  : list (nat * Featureset) :=
  List.filter (fun row => negb (Nat.eqb (fst row) id)) t.

(** One piece of pending work, applied to the table. *)
Definition flush_one (p : Pending) (w : World) : World :=
  match p with
  | PNew r =>
      let o := heap w !!! r in
      match o_id o with
      | Some _ => w
      | None =>
          let id := next_id w in
          set_next_id (S id)
            (set_table (table w ++ [(id, o_val o)])
               (set_heap (<[r := {| o_session := o_session o; o_id := Some id;
                                    o_val := o_val o |}]> (heap w)) w))
      end
  | PDirty r =>
      let o := heap w !!! r in
      match o_id o with
      | Some id => set_table (table_update id (o_val o) (table w)) w
      | None => w
      end
  | PDelete r =>
      match o_id (heap w !!! r) with
      | Some id => set_table (table_delete id (table w)) w
      | None => w
      end
  end.

Definition of_session (s : nat) (p : nat * Pending) : bool := Nat.eqb (fst p) s.

Definition flush (s : nat) (w : World) : World :=
  let w' := fold_left (fun w p => flush_one (snd p) w)
              (List.filter (of_session s) (pending w)) w in
  set_pending (List.filter (fun p => negb (of_session s p)) (pending w)) w'.

Definition Session_commit (s : nat) : M unit :=
  modify (flush s) ;;
  t <- gets table ;;
  emit (E_commit s t).

(** The comprehension of [get], [[f for p in self.current_user.projects for
    f in p.featuresets]]: the rows of each project of the user, project by
    project. Modelled from the spec: [p.featuresets], the relationship of
    the models module, is the rows of the table with that project. *)
Definition listing (u : User) (w : World) : list (nat * Featureset) :=
  flat_map (fun p => List.filter (fun row => Nat.eqb (project (snd row)) p) (table w))
    (projects u).

(** Modelled from the spec: a dataset is owned through its project. *)
Definition is_owned_by (d : Dataset) (u : User) : bool :=
  bool_decide (dataset_project d ∈ projects u).

(** [Dataset.query.filter(Dataset.id == dataset_id).one()] *)
Definition Dataset_one (id : Z) : M Dataset :=
  fun w =>
    match List.filter (fun d => Z.eqb (dataset_id d) id) (datasets w) with
    | [] => (Raise NoResultFound, w)
    | [d] => (Ok d, w)
    | _ => (Raise MultipleResultsFound, w)
    end.

(** ** The handler's collaborators *)

Record Handler := {
  current_user : User;
  features_folder : string;               (* cfg['paths:features_folder'] *)
  request_json : list (string * json)     (* what get_json() returns *)
}.

(** Modelled from the spec: the notification boundary of the base handler,
    which pushes an action tag and a payload to the requesting principal. *)
Definition action (self : Handler) (type : string) (payload : list (string * string))
  : M unit :=
  emit (E_action (username (current_user self)) type payload).

(** Modelled from the spec: the success response echoes its data, with a
    client action when one is given; the error response carries a message. *)
Definition success (self : Handler) (data : Data) (act : option string) : M unit :=
  match act with
  | Some a => action self a []
  | None => ret tt
  end ;;
  emit (E_respond (RespSuccess data)).

Definition error (self : Handler) (message : string) : M unit :=
  emit (E_respond (RespError message)).

Definition datetime_now : M Z := gets clock.

Definition spawn_callback (future : string) (fset : nat) : M unit :=
  emit (E_spawn future fset).

(** What the response serialises of a record. *)
Definition to_data (r : nat) : M Data :=
  gets (fun w => let o := heap w !!! r in DFeatureset (o_id o) (o_val o)).

(** [os.path.join] of two components. *)
Fixpoint ends_with_slash (s : string) : bool :=
  match s with
  | EmptyString => false
  | String c EmptyString => Ascii.eqb c "/"%char
  | String _ s' => ends_with_slash s'
  end.

Definition pjoin (a b : string) : string :=
  if String.prefix "/" b then b
  else if String.eqb a "" || ends_with_slash a then a +:+ b
  else a +:+ "/" +:+ b.

Definition getitem (d : list (string * json)) (k : string) : Result json :=
  match dict_lookup k d with
  | Some v => Ok v
  | None => Raise (KeyError k)
  end.

(** What the handler takes from the Python runtime and from the libraries
    it imports. *)
Record Runtime := {
  (* the names of the catalog [cesium.features.dask_feature_graph] *)
  dask_feature_graph : list string;
  (* [repr] *)
  py_repr : json -> string;
  (* [int] on a string: no value stands for [ValueError] *)
  int_of_str : string -> option Z;
  (* [str.strip] *)
  str_strip : string -> string;
  (* the text of the n-th identifier [uuid.uuid4()] draws *)
  uuid4 : nat -> string;
  (* the key the pool gives to the n-th task it accepts *)
  pool_key : Fn -> nat -> string
}.

Section FeatureHandler.

Context (rt : Runtime).

(** [str(v)], as ['{}'.format(v)] inserts it. *)
Definition py_str (v : json) : string :=
  match v with
  | JStr s => s
  | _ => py_repr rt v
  end.

(** [int(v)] *)
Definition py_int (v : json) : Result Z :=
  match v with
  | JInt z => Ok z
  | JBool b => Ok (Z.b2z b)
  | JStr s => match int_of_str rt s with
              | Some z => Ok z
              | None => Raise ValueError
              end
  | JNull | JList _ | JDict _ => Raise TypeError
  end.

(** [v.strip()] *)
Definition strip (v : json) : Result string :=
  match v with
  | JStr s => Ok (str_strip rt s)
  | _ => Raise AttributeError
  end.

Definition uuid_uuid4 : M string :=
  fun w => (Ok (uuid4 rt (entropy w)), set_entropy (S (entropy w)) w).

(** [client.submit(fn, *args, **kwargs)]: the pool accepts one task and
    returns its future, which stands here for its key. *)
Definition client_submit (fn : Fn) (args : list Arg) (kwargs : list (string * Arg))
  : M string :=
  n <- gets pool_seq ;;
  modify (set_pool_seq (S n)) ;;
  let key := pool_key rt fn n in
  emit (E_task {| t_key := key; t_fn := fn; t_args := args; t_kwargs := kwargs |}) ;;
  ret key.

(** [client.map(fn, items, **kwargs)]: one task for each item. *)
Definition client_map (fn : Fn) (items : list Arg) (kwargs : list (string * Arg))
  : M (list string) :=
  for_each (fun x => client_submit fn [x] kwargs) items.

(** ** The handler *)

(** [get], for [featureset_id is None]: the listing. *)
Definition get (self : Handler) : M unit :=
  featureset_info <- gets (listing (current_user self)) ;;
  success self (DList featureset_info) None.

(** [_await_featurization]. The coroutine is suspended at [await future],
    the first statement of its [try] block, and the event loop resumes it
    with the outcome of the future, which is what [future] stands for here.
    The other statements of the [try] block raise on a fault of the database
    only, which is not modelled: the [except] clause is entered from the
    [await], and [fset] then still is the argument of the call. The delete
    of the [except] clause raises out of the coroutine when the session
    refuses the object. *)
Definition _await_featurization (self : Handler) (future : outcome) (fset : nat)
  : M unit :=
  match future with
  | Resolved result =>
      s <- DBSession ;;
      fset <- Session_merge s fset ;;
      setattr fset (with_task_id None) ;;
      now <- datetime_now ;;
      setattr fset (with_finished (Some now)) ;;
      s <- DBSession ;;
      Session_commit s ;;
      n <- getattr fset name ;;
      action self "baselayer/SHOW_NOTIFICATION"
        [("note", "Calculation of featureset '" +:+ py_str n +:+ "' completed.")]
  | Failed e =>
      s <- DBSession ;;
      Session_delete s fset ;;
      s <- DBSession ;;
      Session_commit s ;;
      n <- getattr fset name ;;
      action self "baselayer/SHOW_NOTIFICATION"
        [("note", "Cannot featurize " +:+ py_str n +:+ ": " +:+ failure_str e);
         ("type", "error")] ;;
      emit (E_print e)
  end ;;
  action self "cesium/FETCH_FEATURESETS" [].

(** The comprehension that selects [features_to_use] from the request. *)
Definition select_features (data : list (string * json)) : list string :=
  map fst (List.filter
             (fun item => bool_decide (fst item ∈ dask_feature_graph rt)
                          && truthy (snd item)) data).

(** [await self._get_client()]: the handler is suspended until the client is
    there, and the event loop runs meanwhile the coroutines that are ready,
    [others]; what they raise is theirs. *)
Definition _get_client (others : M unit) : M unit :=
  fun w => (Ok tt, snd (others w)).

(** [post], with [others] run by the event loop during its await. *)
Definition post_while (others : M unit) (self : Handler) : M unit :=
  let data := request_json self in
  let featureset_name := dict_get data "featuresetName" (JStr "") in
  v <- lift (getitem data "datasetID") ;;
  dataset_id <- lift (py_int v) ;;
  let features_to_use := select_features data in
  match features_to_use with
  | [] => error self "At least one feature must be selected."
  | _ :: _ =>
      v <- lift (getitem data "customFeatsCode") ;;
      custom_feats_code <- lift (strip v) ;;
      let custom_script_path := ANone in
      dataset <- Dataset_one dataset_id ;;
      if negb (is_owned_by dataset (current_user self)) then
        raise (AccessError "No such data set")
      else
        u <- uuid_uuid4 ;;
        let fset_path := pjoin (features_folder self) (u +:+ "_featureset.npz") in
        fset <- Featureset_new
                  {| name := featureset_name; file_uri := fset_path;
                     project := dataset_project dataset;
                     features_list := features_to_use;
                     custom_features_script := None;
                     task_id := None; finished := None |} ;;
        s <- DBSession ;;
        Session_add s fset ;;
        _get_client others ;;
        all_time_series <- client_map time_series_load
                             (map AStr (dataset_files dataset)) [] ;;
        all_labels <- client_map ts_label_of (map AFuture all_time_series) [] ;;
        all_features <- client_map featurize_single_ts
                          (map AFuture all_time_series)
                          [("features_to_use", AStrs features_to_use);
                           ("custom_script_path", custom_script_path);
                           ("raise_exceptions", ABool false)] ;;
        computed_fset <- client_submit assemble_featureset
                           [AFutures all_features; AFutures all_time_series] [] ;;
        imputed_fset <- client_submit impute_featureset
                          [AFuture computed_fset] [("inplace", ABool false)] ;;
        future <- client_submit save_featureset
                    [AFuture imputed_fset; AStr fset_path]
                    [("labels", AFutures all_labels)] ;;
        setattr fset (with_task_id (Some future)) ;;
        s <- DBSession ;;
        Session_commit s ;;
        spawn_callback future fset ;;
        d <- to_data fset ;;
        success self d (Some "cesium/FETCH_FEATURESETS")
  end.

(** [post], when no other coroutine runs during its await. *)
Definition post (self : Handler) : M unit := post_while (ret tt) self.

(** A coroutine that commits the session of the scope, as the watcher of
    another job does at the end of its [try] block. *)
Definition committer : M unit := s <- DBSession ;; Session_commit s.

End FeatureHandler.


(** ** Reading a trace *)

Definition actions_of (tr : list Effect) : list (string * list (string * string)) :=
  omap (fun e => match e with E_action _ t p => Some (t, p) | _ => None end) tr.

Definition tasks_of (tr : list Effect) : list Task :=
  omap (fun e => match e with E_task t => Some t | _ => None end) tr.

Definition commits_of (tr : list Effect) : list (list (nat * Featureset)) :=
  omap (fun e => match e with E_commit _ t => Some t | _ => None end) tr.

(** The world as the watcher finds it when the event loop resumes it: the
    scope may have another session, and the clock has moved. *)
Definition resumed (s : nat) (now : Z) (w : World) : World :=
  {| heap := heap w; next_ref := next_ref w; table := table w;
     next_id := next_id w; datasets := datasets w; active := s;
     pending := pending w; clock := now; entropy := entropy w;
     pool_seq := pool_seq w; trace := trace w |}.

(** ** The submitted pipeline, in closed form *)

Section Pipeline.

Context (rt : Runtime).

(** The keys of [n] tasks of [fn] that the pool accepts from its [n0]-th
    task on. *)
Definition keys_from (fn : Fn) (n0 n : nat) : list string :=
  map (pool_key rt fn) (seq n0 n).

(** The tasks of one [client.map] call. *)
Definition stage (fn : Fn) (kwargs : list (string * Arg)) (keys : list string)
    (items : list Arg) : list Task :=
  zip_with (fun k x => {| t_key := k; t_fn := fn; t_args := [x]; t_kwargs := kwargs |})
    keys items.

Definition featurize_kwargs (features_to_use : list string) : list (string * Arg) :=
  [("features_to_use", AStrs features_to_use);
   ("custom_script_path", ANone);
   ("raise_exceptions", ABool false)].

(** The tasks [post] hands to a pool that has accepted [n0] tasks before. *)
Definition pipeline (n0 : nat) (files features_to_use : list string)
    (fset_path : string) : list Task :=
  let n := length files in
  let all_time_series := keys_from time_series_load n0 n in
  let all_labels := keys_from ts_label_of (n0 + n) n in
  let all_features := keys_from featurize_single_ts (n0 + n + n) n in
  let computed_fset := pool_key rt assemble_featureset (n0 + n + n + n) in
  let imputed_fset := pool_key rt impute_featureset (S (n0 + n + n + n)) in
  let future := pool_key rt save_featureset (S (S (n0 + n + n + n))) in
  stage time_series_load [] all_time_series (map AStr files)
  ++ stage ts_label_of [] all_labels (map AFuture all_time_series)
  ++ stage featurize_single_ts (featurize_kwargs features_to_use) all_features
       (map AFuture all_time_series)
  ++ [ {| t_key := computed_fset; t_fn := assemble_featureset;
          t_args := [AFutures all_features; AFutures all_time_series];
          t_kwargs := [] |};
       {| t_key := imputed_fset; t_fn := impute_featureset;
          t_args := [AFuture computed_fset];
          t_kwargs := [("inplace", ABool false)] |};
       {| t_key := future; t_fn := save_featureset;
          t_args := [AFuture imputed_fset; AStr fset_path];
          t_kwargs := [("labels", AFutures all_labels)] |} ].

(** The key of the future [post] hands to the watcher. *)
Definition terminal_key (n0 : nat) (files : list string) : string :=
  let n := length files in
  pool_key rt save_featureset (S (S (n0 + n + n + n))).

(** The path of the artifact. *)
Definition artifact_path (self : Handler) (w : World) : string :=
  pjoin (features_folder self) (uuid4 rt (entropy w) +:+ "_featureset.npz").

(** The record [post] commits for dataset [d]. *)
Definition job_record (self : Handler) (w : World) (d : Dataset) : Featureset :=
  {| name := dict_get (request_json self) "featuresetName" (JStr "");
     file_uri := artifact_path self w;
     project := dataset_project d;
     features_list := select_features rt (request_json self);
     custom_features_script := None;
     task_id := Some (terminal_key (pool_seq w) (dataset_files d));
     finished := None |}.

(** The world in which [post] reaches its commit. *)
Definition committing (self : Handler) (w : World) (d : Dataset) : World :=
  let fset := next_ref w in
  let n := length (dataset_files d) in
  {| heap := <[fset := {| o_session := Some (active w); o_id := None;
                          o_val := job_record self w d |}]> (heap w);
     next_ref := S fset;
     table := table w;
     next_id := next_id w;
     datasets := datasets w;
     active := active w;
     pending := pending w ++ [(active w, PNew fset); (active w, PDirty fset)];
     clock := clock w;
     entropy := S (entropy w);
     pool_seq := S (S (S (pool_seq w + n + n + n)));
     trace := trace w
              ++ [E_add (active w) fset]
              ++ map E_task (pipeline (pool_seq w) (dataset_files d)
                               (select_features rt (request_json self))
                               (artifact_path self w)) |}.

(** The world a successful [post] leaves. *)
Definition submitted (self : Handler) (w : World) (d : Dataset) : World :=
  let fset := next_ref w in
  let w' := flush (active w) (committing self w d) in
  set_trace
    (trace w' ++
       [E_commit (active w) (table w');
        E_spawn (terminal_key (pool_seq w) (dataset_files d)) fset;
        E_action (username (current_user self)) "cesium/FETCH_FEATURESETS" [];
        E_respond (RespSuccess (DFeatureset (o_id (heap w' !!! fset))
                                            (o_val (heap w' !!! fset))))])
    w'.

End Pipeline.

(** ** The stages, as the pool runs them *)

(** Modelled from the spec: the functions of the cesium library that the
    tasks name (the stages of section 4.1), and the pool that runs the tasks
    it has accepted in order, a task failing with the failure of the first of
    its arguments that has failed. *)

(** What the workers find: the series behind each uri, and the constant the
    imputation fills in. *)
Record Workers := {
  load_file : string -> failure + TimeSeries;
  fill_value : Z
}.

(** An argument of a call, once the futures in it have been awaited. *)
Inductive RArg :=
| R_value (o : outcome)
| R_values (os : list outcome)
| R_str (s : string)
| R_strs (l : list string)
| R_bool (b : bool)
| R_none.

Definition unknown_future (k : string) : failure := Failure "CancelledError" k.
Definition bad_call : failure := Failure "TypeError" "".

Definition future_result (rs : gmap string outcome) (k : string) : outcome :=
  default (Failed (unknown_future k)) (rs !! k).

Definition resolve (rs : gmap string outcome) (a : Arg) : RArg :=
  match a with
  | AFuture k => R_value (future_result rs k)
  | AFutures ks => R_values (map (future_result rs) ks)
  | AStr s => R_str s
  | AStrs l => R_strs l
  | ABool b => R_bool b
  | ANone => R_none
  end.

(** The values of a list of outcomes, or the first failure among them. *)
Fixpoint gather (os : list outcome) : failure + list Value :=
  match os with
  | [] => inr []
  | Resolved v :: os' =>
      match gather os' with
      | inr vs => inr (v :: vs)
      | inl e => inl e
      end
  | Failed e :: _ => inl e
  end.

Fixpoint rows_of (vs : list Value) : option (list FeatureRow) :=
  match vs with
  | [] => Some []
  | VFeatures row :: vs' => cons row <$> rows_of vs'
  | _ :: _ => None
  end.

Fixpoint labels_of (vs : list Value) : option (list string) :=
  match vs with
  | [] => Some []
  | VLabel l :: vs' => cons l <$> labels_of vs'
  | _ :: _ => None
  end.

(** [featurize_single_ts]: one cell for each feature; a feature whose
    computation fails is a missing value, unless [raise_exceptions]. *)
Fixpoint featurize_row (ts : TimeSeries) (features_to_use : list string)
    (raise_exceptions : bool) : failure + FeatureRow :=
  match features_to_use with
  | [] => inr []
  | f :: fs =>
      match ts_compute ts f with
      | inr v =>
          match featurize_row ts fs raise_exceptions with
          | inr row => inr ((f, Some v) :: row)
          | inl e => inl e
          end
      | inl e =>
          if raise_exceptions then inl e
          else match featurize_row ts fs raise_exceptions with
               | inr row => inr ((f, None) :: row)
               | inl e' => inl e'
               end
      end
  end.

(** [impute_featureset]: every missing value is filled in. *)
Definition impute_row (fill : Z) (row : FeatureRow) : FeatureRow :=
  map (fun cell => (fst cell, Some (default fill (snd cell)))) row.

Definition kwarg (k : string) (kwargs : list (string * RArg)) : option RArg :=
  snd <$> List.find (fun kw => String.eqb (fst kw) k) kwargs.

Definition of_sum {A} (f : A -> Value) (r : failure + A) : outcome :=
  match r with
  | inr a => Resolved (f a)
  | inl e => Failed e
  end.

(** The call of a stage on awaited arguments. *)
Definition call (wk : Workers) (fn : Fn) (args : list RArg)
    (kwargs : list (string * RArg)) : outcome :=
  match fn, args with
  | time_series_load, [R_str uri] =>
      of_sum VTimeSeries (load_file wk uri)
  | ts_label_of, [R_value (Resolved (VTimeSeries ts))] =>
      Resolved (VLabel (ts_label ts))
  | featurize_single_ts, [R_value (Resolved (VTimeSeries ts))] =>
      match kwarg "features_to_use" kwargs, kwarg "raise_exceptions" kwargs with
      | Some (R_strs features_to_use), Some (R_bool raise_exceptions) =>
          of_sum VFeatures (featurize_row ts features_to_use raise_exceptions)
      | Some (R_strs features_to_use), None =>
          of_sum VFeatures (featurize_row ts features_to_use true)
      | _, _ => Failed bad_call
      end
  | assemble_featureset, [R_values features; R_values series] =>
      match gather features, gather series with
      | inr fs, inr tss =>
          match rows_of fs with
          | Some rows =>
              if Nat.eqb (length rows) (length tss)
              then Resolved (VFeatureset rows)
              else Failed bad_call
          | None => Failed bad_call
          end
      | inl e, _ => Failed e
      | _, inl e => Failed e
      end
  | impute_featureset, [R_value (Resolved (VFeatureset rows))] =>
      Resolved (VFeatureset (map (impute_row (fill_value wk)) rows))
  | save_featureset, [R_value (Resolved (VFeatureset rows)); R_str path] =>
      match kwarg "labels" kwargs with
      | Some (R_values ls) =>
          match gather ls with
          | inr lvs =>
              match labels_of lvs with
              | Some labels => Resolved (VSaved path rows labels)
              | None => Failed bad_call
              end
          | inl e => Failed e
          end
      | _ => Failed bad_call
      end
  | _, [R_value (Failed e)] => Failed e
  | _, [R_value (Failed e); _] => Failed e
  | _, _ => Failed bad_call
  end.

(** One task, run when the futures in [rs] have their outcomes. *)
Definition exec (wk : Workers) (rs : gmap string outcome) (t : Task) : outcome :=
  call wk (t_fn t) (map (resolve rs) (t_args t))
    (map (fun kw => (fst kw, resolve rs (snd kw))) (t_kwargs t)).

(** The pool runs the tasks in the order in which it accepted them. *)
Definition run_pool (wk : Workers) (tasks : list Task) (rs : gmap string outcome)
  : gmap string outcome :=
  fold_left (fun rs t => <[t_key t := exec wk rs t]> rs) tasks rs.

(** The row [featurize_single_ts] gives when exceptions are not raised. *)
Definition lenient_row (ts : TimeSeries) (features_to_use : list string) : FeatureRow :=
  map (fun f => (f, match ts_compute ts f with
                    | inr v => Some v
                    | inl _ => None
                    end)) features_to_use.

(** ** The life of a job record *)

Inductive JobState := PENDING | COMPLETED | DELETED.

(** The invariant of the data model, for the row a listing query would find
    ([None]: there is no such row). *)
Definition job_invariant (st : JobState) (row : option Featureset) : Prop :=
  match row with
  | Some f =>
      (is_Some (task_id f) <-> st = PENDING)
      /\ (is_Some (finished f) <-> st = COMPLETED)
      /\ st <> DELETED
  | None => st = DELETED
  end.

(** The state the watcher leaves the record in. *)
Definition final_state (future : outcome) : JobState :=
  match future with
  | Resolved _ => COMPLETED
  | Failed _ => DELETED
  end.

(** ** Requests that differ in the custom-feature code only *)

Definition same_but_custom (d1 d2 : list (string * json)) : Prop :=
  Forall2 (fun i1 i2 =>
             fst i1 = fst i2
             /\ if String.eqb (fst i1) "customFeatsCode"
                then exists s1 s2, snd i1 = JStr s1 /\ snd i2 = JStr s2
                else snd i1 = snd i2) d1 d2.

(** ** Dependencies between tasks *)

Definition arg_futures (a : Arg) : list string :=
  match a with
  | AFuture k => [k]
  | AFutures ks => ks
  | _ => []
  end.

(** The futures a task waits for. *)
Definition dependencies (t : Task) : list string :=
  flat_map arg_futures (t_args t) ++ flat_map (fun kw => arg_futures (snd kw)) (t_kwargs t).

Definition depends_on (t : Task) (k : string) : bool :=
  bool_decide (k ∈ dependencies t).

(** The reading of the task graph in which the assemble task is fed by the
    label tasks: every assemble task waits for every label task. *)
Definition assemble_waits_for_labels (tasks : list Task) : bool :=
  forallb (fun asm =>
             match t_fn asm with
             | assemble_featureset =>
                 forallb (fun lbl =>
                            match t_fn lbl with
                            | ts_label_of => depends_on asm (t_key lbl)
                            | _ => true
                            end) tasks
             | _ => true
             end) tasks.

(** ** What a run leaves in the trace *)

(** The effects that neither answer the request nor reach the pool, the
    event loop or a new record. *)
Definition quiet (e : Effect) : bool :=
  match e with
  | E_respond _ | E_task _ | E_spawn _ _ | E_add _ _ => false
  | _ => true
  end.

(** A computation with quiet effects only, however it ends. *)
Definition quietly {A} (m : M A) : Prop :=
  forall w, exists res w' mid,
    m w = (res, w') /\ trace w' = trace w ++ mid
    /\ forallb quiet mid = true /\ pool_seq w' = pool_seq w.

(** ** A scenario *)

Module Scenario.

Definition fn_name (fn : Fn) : string :=
  match fn with
  | time_series_load => "load"
  | ts_label_of => "lambda"
  | featurize_single_ts => "featurize_single_ts"
  | assemble_featureset => "assemble_featureset"
  | impute_featureset => "impute_featureset"
  | save_featureset => "save_featureset"
  end.

Definition rt : Runtime :=
  {| dask_feature_graph := ["amplitude"; "period"; "skew"];
     py_repr := fun v => match v with
                         | JNull => "None"
                         | JBool true => "True"
                         | JBool false => "False"
                         | _ => "..."
                         end;
     int_of_str := fun s => if String.eqb s "7" then Some 7%Z else None;
     str_strip := fun s => s;
     uuid4 := fun n => "uuid" +:+ pretty n;
     pool_key := fun fn n => fn_name fn +:+ "-" +:+ pretty n |}.

Definition dataset : Dataset :=
  {| dataset_id := 7; dataset_project := 3;
     dataset_files := ["s1.nc"; "s2.nc"; "s3.nc"] |}.

Definition owner : User := {| username := "ann"; projects := [3] |}.
Definition stranger : User := {| username := "bob"; projects := [4] |}.

Definition request (code : string) : list (string * json) :=
  [("featuresetName", JStr "X"); ("datasetID", JInt 7);
   ("amplitude", JBool true); ("period", JBool true);
   ("skew", JBool false); ("bogus", JBool true);
   ("customFeatsCode", JStr code)].

(** No feature is selected. *)
Definition empty_request : list (string * json) :=
  [("featuresetName", JStr "X"); ("datasetID", JInt 7);
   ("amplitude", JBool false); ("customFeatsCode", JStr "")].

Definition handler (u : User) (data : list (string * json)) : Handler :=
  {| current_user := u; features_folder := "/data/features"; request_json := data |}.

Definition w0 : World :=
  {| heap := ∅; next_ref := 0; table := []; next_id := 1;
     datasets := [dataset]; active := 0; pending := [];
     clock := 100; entropy := 0; pool_seq := 0; trace := [] |}.

(** The record of the scenario once [post] has committed it. *)
Definition record : Featureset :=
  {| name := JStr "X";
     file_uri := "/data/features/uuid0_featureset.npz";
     project := 3;
     features_list := ["amplitude"; "period"];
     custom_features_script := None;
     task_id := Some "save_featureset-11";
     finished := None |}.

(** The world in which the watcher of the scenario is resumed: the record
    was attached to session 0, and the watcher's scope has session 1. *)
Definition w1 : World :=
  {| heap := {[ 0 := {| o_session := Some 0; o_id := Some 1; o_val := record |} ]};
     next_ref := 1; table := [(1, record)]; next_id := 2;
     datasets := [dataset]; active := 1; pending := [];
     clock := 200; entropy := 1; pool_seq := 12; trace := [] |}.

Definition boom : failure := Failure "ValueError" "boom".

(** The workers of the scenario: the period of the second series cannot
    be computed, and there is no fourth file. *)
Definition series (label : string) (amplitude : Z) (period : failure + Z) : TimeSeries :=
  {| ts_label := label;
     ts_compute := fun f =>
       if String.eqb f "amplitude" then inr amplitude
       else if String.eqb f "period" then period
       else inl (Failure "KeyError" f) |}.

Definition workers : Workers :=
  {| load_file := fun uri =>
       if String.eqb uri "s1.nc" then inr (series "a" 3 (inr 10%Z))
       else if String.eqb uri "s2.nc"
            then inr (series "b" 5 (inl (Failure "ZeroDivisionError" "division by zero")))
       else if String.eqb uri "s3.nc" then inr (series "a" 4 (inr 12%Z))
       else inl (Failure "FileNotFoundError" uri);
     fill_value := 0 |}.

(** The request of the scenario, from the owner of the dataset. *)
Definition submit : Handler := handler owner (request "").

End Scenario.

Section Properties.

#[local] Arguments set_heap h !w /.
#[local] Arguments set_next_ref n !w /.
#[local] Arguments set_table t !w /.
#[local] Arguments set_next_id n !w /.
#[local] Arguments set_pending p !w /.
#[local] Arguments set_entropy n !w /.
#[local] Arguments set_pool_seq n !w /.
#[local] Arguments set_trace t !w /.

Context (rt : Runtime).

Ltac run_handler :=
  unfold emit, bind, ret, raise, lift, gets, modify;
  cbn -[insert lookup_total lookup String.append table_delete table_update
        pjoin client_map client_submit keys_from stage for_each
        select_features dict_get flush flush_one];
  cbn [heap next_ref table next_id datasets active pending clock entropy
       pool_seq trace].

Lemma table_lookup_delete k t : table_lookup k (table_delete k t) = None.
Proof.
  unfold table_lookup, table_delete.
  induction t as [|[i g] t IH]; simpl; [done|].
  destruct (Nat.eqb_spec i k) as [->|Hne]; simpl; [done|].
  by destruct (Nat.eqb_spec i k).
Qed.

Lemma table_delete_ids k t : k ∉ map fst (table_delete k t).
Proof.
  unfold table_delete. intros Hin.
  apply list_elem_of_fmap in Hin as [row [-> Hrow]].
  apply list_elem_of_In, filter_In in Hrow as [_ Hrow].
  by rewrite Nat.eqb_refl in Hrow.
Qed.

Lemma table_lookup_update k f t :
  is_Some (table_lookup k t) -> table_lookup k (table_update k f t) = Some f.
Proof.
  unfold table_lookup, table_update. intros [g Hg].
  induction t as [|[i h] t IH]; simpl in *; [done|].
  destruct (Nat.eqb_spec i k) as [Heq|Hne]; simpl.
  - by rewrite Nat.eqb_refl.
  - destruct (Nat.eqb_spec i k); [done|]. by apply IH.
Qed.

Lemma table_update_update k f g t :
  table_update k f (table_update k g t) = table_update k f t.
Proof.
  unfold table_update. rewrite map_map. apply map_ext. intros [i h]. simpl.
  destruct (Nat.eqb_spec i k); simpl.
  - by rewrite Nat.eqb_refl.
  - by destruct (Nat.eqb_spec i k).
Qed.

Lemma listing_ids u w row : row ∈ listing u w -> row ∈ table w.
Proof.
  unfold listing. rewrite !list_elem_of_In, in_flat_map.
  intros [p [_ Hrow]]. by apply filter_In in Hrow as [Hrow _].
Qed.

Lemma watch_fail self e fset w o k :
  heap w !! fset = Some o -> o_id o = Some k -> pending w = [] ->
  deletable (active w) o = true ->
  _await_featurization rt self (Failed e) fset w =
    (Ok tt,
     set_trace (trace w ++
        [E_delete (active w) fset;
         E_commit (active w) (table_delete k (table w));
         E_action (username (current_user self)) "baselayer/SHOW_NOTIFICATION"
           [("note", "Cannot featurize " +:+ py_str rt (name (o_val o)) +:+ ": "
                     +:+ failure_str e);
            ("type", "error")];
         E_print e;
         E_action (username (current_user self)) "cesium/FETCH_FEATURESETS" []])
       (set_table (table_delete k (table w)) w)).
Proof.
  intros Hh Hk Hp Hdel.
  destruct w as [hp nr tb ni ds ac pe cl en ps tr]. simpl in *. subst pe.
  unfold _await_featurization, DBSession, Session_delete, Session_commit,
    getattr, action.
  run_handler. rewrite (lookup_total_correct _ _ _ Hh), Hdel.
  run_handler. unfold flush, flush_one. run_handler.
  rewrite Nat.eqb_refl. run_handler.
  rewrite (lookup_total_correct _ _ _ Hh), Hk. run_handler.
  rewrite ?(lookup_total_correct _ _ _ Hh).
  by rewrite <- !app_assoc.
Qed.

(** The failure path, when the session refuses the object. *)
Lemma watch_refused self e fset w o :
  heap w !! fset = Some o ->
  deletable (active w) o = false ->
  _await_featurization rt self (Failed e) fset w =
    (Raise InvalidRequestError,
     set_trace (trace w ++ [E_delete (active w) fset]) w).
Proof.
  intros Hh Hdel.
  destruct w as [hp nr tb ni ds ac pe cl en ps tr]. simpl in *.
  unfold _await_featurization, DBSession, Session_delete.
  run_handler. rewrite (lookup_total_correct _ _ _ Hh), Hdel.
  reflexivity.
Qed.

Lemma deletable_own s o k :
  o_id o = Some k -> o_session o = Some s -> deletable s o = true.
Proof. intros Hk Hs. unfold deletable. rewrite Hk, Hs. apply Nat.eqb_refl. Qed.

Lemma deletable_other s s' o k :
  o_id o = Some k -> o_session o = Some s' -> s' <> s -> deletable s o = false.
Proof.
  intros Hk Hs Hne. unfold deletable. rewrite Hk, Hs. by apply Nat.eqb_neq.
Qed.

Lemma watch_ok self v fset w o k :
  heap w !! fset = Some o -> o_id o = Some k -> pending w = [] ->
  let f' := with_finished (Some (clock w)) (with_task_id None (o_val o)) in
  let fset' := if bool_decide (o_session o = Some (active w)) then fset else next_ref w in
  let o' := {| o_session := Some (active w); o_id := Some k; o_val := f' |} in
  _await_featurization rt self (Resolved v) fset w =
    (Ok tt,
     set_trace (trace w ++
        [E_merge (active w) fset fset';
         E_commit (active w) (table_update k f' (table w));
         E_action (username (current_user self)) "baselayer/SHOW_NOTIFICATION"
           [("note", "Calculation of featureset '" +:+ py_str rt (name (o_val o))
                     +:+ "' completed.")];
         E_action (username (current_user self)) "cesium/FETCH_FEATURESETS" []])
       (set_table (table_update k f' (table w))
          (set_next_ref (if bool_decide (o_session o = Some (active w))
                         then next_ref w else S (next_ref w))
             (set_heap (<[fset' := o']> (heap w)) w)))).
Proof.
  intros Hh Hk Hp f' fset' o'.
  destruct w as [hp nr tb ni ds ac pe cl en ps tr]. simpl in *. subst pe.
  unfold _await_featurization, DBSession, Session_merge, Session_commit,
    setattr, datetime_now, getattr, action, flush, flush_one.
  run_handler.
  rewrite (lookup_total_correct _ _ _ Hh).
  subst fset'. case_bool_decide as Hs.
  - repeat (progress (run_handler;
      rewrite ?lookup_total_insert_eq, ?(lookup_total_correct _ _ _ Hh), ?Nat.eqb_refl, ?Hs, ?Hk)).
    rewrite table_update_update.
    rewrite <- !app_assoc. simpl. rewrite !insert_insert_eq. done.
  - repeat (progress (run_handler;
      rewrite ?lookup_total_insert_eq, ?(lookup_total_correct _ _ _ Hh), ?Nat.eqb_refl, ?Hs, ?Hk)).
    rewrite table_update_update.
    rewrite <- !app_assoc. simpl. rewrite !insert_insert_eq. done.
Qed.


Lemma length_keys_from fn n0 n : length (keys_from rt fn n0 n) = n.
Proof. unfold keys_from. by rewrite length_map, length_seq. Qed.

Lemma client_submit_run fn args kw w :
  client_submit rt fn args kw w =
    (Ok (pool_key rt fn (pool_seq w)),
     set_trace (trace w ++ [E_task {| t_key := pool_key rt fn (pool_seq w);
                                      t_fn := fn; t_args := args; t_kwargs := kw |}])
       (set_pool_seq (S (pool_seq w)) w)).
Proof. destruct w. reflexivity. Qed.

Lemma client_map_run fn kw items : forall w,
  client_map rt fn items kw w =
    (Ok (keys_from rt fn (pool_seq w) (length items)),
     set_trace (trace w ++ map E_task (stage fn kw (keys_from rt fn (pool_seq w)
                                                      (length items)) items))
       (set_pool_seq (pool_seq w + length items) w)).
Proof.
  unfold client_map. induction items as [|x items IH]; intros w.
  - destruct w; simpl. unfold ret. rewrite app_nil_r, Nat.add_0_r. reflexivity.
  - simpl for_each. unfold bind at 1. rewrite client_submit_run.
    unfold bind at 1. rewrite IH. destruct w. unfold ret. simpl.
    rewrite <- app_assoc, Nat.add_succ_r. reflexivity.
Qed.

Lemma bind_Ok {A B} (m : M A) (k : A -> M B) w a w1 R :
  m w = (Ok a, w1) -> k a w1 = R -> bind m k w = R.
Proof. intros Hm Hk. unfold bind. by rewrite Hm. Qed.

Lemma flush_one_new r w o :
  heap w !! r = Some o -> o_id o = None ->
  flush_one (PNew r) w =
    set_next_id (S (next_id w))
      (set_table (table w ++ [(next_id w, o_val o)])
         (set_heap (<[r := {| o_session := o_session o; o_id := Some (next_id w);
                              o_val := o_val o |}]> (heap w)) w)).
Proof.
  intros Hr Hid. unfold flush_one.
  by rewrite (lookup_total_correct _ _ _ Hr), Hid.
Qed.

Lemma flush_one_dirty r w o id :
  heap w !! r = Some o -> o_id o = Some id ->
  flush_one (PDirty r) w = set_table (table_update id (o_val o) (table w)) w.
Proof.
  intros Hr Hid. unfold flush_one.
  by rewrite (lookup_total_correct _ _ _ Hr), Hid.
Qed.

Ltac prim :=
  unfold uuid_uuid4, Featureset_new, DBSession, Session_add, _get_client,
    Session_commit, setattr, spawn_callback, to_data, success, action;
  repeat (progress (run_handler;
    rewrite ?lookup_total_insert_eq, ?client_map_run, ?client_submit_run));
  try reflexivity.

Ltac step := eapply bind_Ok; [ prim | cbv beta ].

Lemma trace_set_trace t w : trace (set_trace t w) = t.
Proof. by destruct w. Qed.

Lemma set_trace_set_trace t t' w : set_trace t (set_trace t' w) = set_trace t w.
Proof. by destruct w. Qed.

Lemma table_set_trace t w : table (set_trace t w) = table w.
Proof. by destruct w. Qed.

Lemma heap_set_trace t w : heap (set_trace t w) = heap w.
Proof. by destruct w. Qed.

Lemma post_run self w v did c d :
  dict_lookup "datasetID" (request_json self) = Some v ->
  py_int rt v = Ok did ->
  select_features rt (request_json self) <> [] ->
  dict_lookup "customFeatsCode" (request_json self) = Some (JStr c) ->
  List.filter (fun d => Z.eqb (dataset_id d) did) (datasets w) = [d] ->
  is_owned_by d (current_user self) = true ->
  post rt self w = (Ok tt, submitted rt self w d).
Proof.
  intros Hid Hint Hsel Hc Hd Hown.
  unfold post, post_while, getitem. rewrite Hid, Hc.
  destruct (select_features rt (request_json self)) as [|f0 fs] eqn:Hfs; [done|].
  unfold bind at 1. unfold lift at 1. unfold bind at 1. unfold lift at 1. rewrite Hint.
  unfold bind at 1. unfold lift at 1. unfold bind at 1. unfold lift at 1. simpl strip.
  unfold bind at 1. unfold Dataset_one at 1. rewrite Hd. rewrite Hown. simpl negb. cbv iota.
  unfold submitted, committing, job_record, artifact_path, terminal_key, pipeline.
  rewrite Hfs.
  destruct w as [hp nr tb ni ds ac pe cl en ps tr].
  do 13 step.
  rewrite !insert_insert_eq, ?length_map, ?length_keys_from.
  unfold Session_commit, spawn_callback, to_data, success, action.
  run_handler.
  rewrite ?trace_set_trace, ?set_trace_set_trace, ?table_set_trace, ?heap_set_trace.
  rewrite ?map_app, <- ?app_assoc. cbn [app map].
  rewrite ?length_map, ?length_keys_from.
  reflexivity.
Qed.


(** A flush touches neither the trace nor the attributes of an object. *)
Lemma flush_one_trace p w : trace (flush_one p w) = trace w.
Proof.
  destruct p as [r|r|r]; unfold flush_one;
    destruct (o_id (heap w !!! r)); by destruct w.
Qed.

Lemma flush_one_val p w r :
  o_val (heap (flush_one p w) !!! r) = o_val (heap w !!! r).
Proof.
  destruct p as [r0|r0|r0]; unfold flush_one;
    destruct (o_id (heap w !!! r0)) eqn:Hid; try by destruct w.
  destruct w as [hp nr tb ni ds ac pe cl en ps tr]; cbn in *.
  destruct (decide (r0 = r)) as [->|Hne].
  - by rewrite lookup_total_insert_eq.
  - by rewrite lookup_total_insert_ne.
Qed.

Lemma flush_fold_trace ps : forall w,
  trace (fold_left (fun w (p : nat * Pending) => flush_one (snd p) w) ps w) = trace w.
Proof.
  induction ps as [|p ps IH]; intros w; simpl; [done|].
  by rewrite IH, flush_one_trace.
Qed.

Lemma flush_fold_val ps r : forall w,
  o_val (heap (fold_left (fun w (p : nat * Pending) => flush_one (snd p) w) ps w) !!! r)
  = o_val (heap w !!! r).
Proof.
  induction ps as [|p ps IH]; intros w; simpl; [done|].
  by rewrite IH, flush_one_val.
Qed.

Lemma flush_trace s w : trace (flush s w) = trace w.
Proof.
  unfold flush.
  set (w' := fold_left _ _ _).
  replace (trace (set_pending _ w')) with (trace w') by (by destruct w').
  apply flush_fold_trace.
Qed.

Lemma flush_val s w r : o_val (heap (flush s w) !!! r) = o_val (heap w !!! r).
Proof.
  unfold flush.
  set (w' := fold_left _ _ _).
  replace (heap (set_pending _ w')) with (heap w') by (by destruct w').
  apply flush_fold_val.
Qed.

(** The flush of [post], for a session without earlier work. *)
Lemma flush_committing self w d :
  pending w = [] ->
  let f := job_record rt self w d in
  flush (active w) (committing rt self w d) =
    set_pending []
      (set_next_id (S (next_id w))
         (set_table (table_update (next_id w) f (table w ++ [(next_id w, f)]))
            (set_heap (<[next_ref w := {| o_session := Some (active w);
                                          o_id := Some (next_id w);
                                          o_val := f |}]> (heap w))
               (committing rt self w d)))).
Proof.
  intros Hp f. unfold flush, committing.
  destruct w as [hp nr tb ni ds ac pe cl en ps tr]. cbn in Hp. subst pe.
  cbn [pending active next_ref app List.filter of_session fst snd fold_left].
  unfold of_session. cbn [fst]. rewrite Nat.eqb_refl.
  cbn [pending active next_ref app List.filter of_session fst snd fold_left negb].
  erewrite flush_one_new; [ | apply lookup_insert_eq | reflexivity ].
  run_handler. rewrite insert_insert_eq.
  erewrite flush_one_dirty; [ | apply lookup_insert_eq | reflexivity ].
  run_handler. reflexivity.
Qed.

Lemma submitted_trace self w d :
  exists id,
  trace (submitted rt self w d) =
    trace w
    ++ [E_add (active w) (next_ref w)]
    ++ map E_task (pipeline rt (pool_seq w) (dataset_files d)
                     (select_features rt (request_json self))
                     (artifact_path rt self w))
    ++ [E_commit (active w) (table (submitted rt self w d));
        E_spawn (terminal_key rt (pool_seq w) (dataset_files d)) (next_ref w);
        E_action (username (current_user self)) "cesium/FETCH_FEATURESETS" [];
        E_respond (RespSuccess (DFeatureset id (job_record rt self w d)))].
Proof.
  unfold submitted. eexists.
  rewrite trace_set_trace, table_set_trace, flush_trace, flush_val.
  unfold committing at 1 4.
  cbn [trace heap]. rewrite lookup_total_insert_eq. cbn [o_val].
  rewrite <- !app_assoc. reflexivity.
Qed.

Lemma submitted_store self w d :
  pending w = [] ->
  let f := job_record rt self w d in
  table (submitted rt self w d)
    = table_update (next_id w) f (table w ++ [(next_id w, f)])
  /\ heap (submitted rt self w d) !! next_ref w
    = Some {| o_session := Some (active w); o_id := Some (next_id w); o_val := f |}
  /\ pending (submitted rt self w d) = []
  /\ active (submitted rt self w d) = active w.
Proof.
  intros Hp f. unfold submitted. rewrite (flush_committing self w d Hp).
  destruct w as [hp nr tb ni ds ac pe cl en ps tr]. cbn in Hp. subst pe.
  unfold committing. run_handler.
  rewrite lookup_insert_eq. done.
Qed.

Lemma table_lookup_app_new id f t : is_Some (table_lookup id (t ++ [(id, f)])).
Proof.
  unfold table_lookup. induction t as [|[i g] t IH]; simpl.
  - rewrite Nat.eqb_refl. by eexists.
  - destruct (Nat.eqb_spec i id); [by eexists | done].
Qed.

(** The other ways out of [post]. *)
Lemma post_invalid self w v did :
  dict_lookup "datasetID" (request_json self) = Some v ->
  py_int rt v = Ok did ->
  select_features rt (request_json self) = [] ->
  post rt self w =
    (Ok tt,
     set_trace (trace w ++ [E_respond (RespError "At least one feature must be selected.")])
       w).
Proof.
  intros Hid Hint Hsel. unfold post, post_while, getitem. rewrite Hid, Hsel.
  unfold bind at 1. unfold lift at 1. unfold bind at 1. unfold lift at 1. rewrite Hint.
  reflexivity.
Qed.

Lemma post_denied self w v did c d :
  dict_lookup "datasetID" (request_json self) = Some v ->
  py_int rt v = Ok did ->
  select_features rt (request_json self) <> [] ->
  dict_lookup "customFeatsCode" (request_json self) = Some (JStr c) ->
  List.filter (fun d => Z.eqb (dataset_id d) did) (datasets w) = [d] ->
  is_owned_by d (current_user self) = false ->
  post rt self w = (Raise (AccessError "No such data set"), w).
Proof.
  intros Hid Hint Hsel Hc Hd Hown.
  unfold post, post_while, getitem. rewrite Hid, Hc.
  destruct (select_features rt (request_json self)) as [|f0 fs] eqn:Hfs; [done|].
  unfold bind at 1. unfold lift at 1. unfold bind at 1. unfold lift at 1. rewrite Hint.
  unfold bind at 1. unfold lift at 1. unfold bind at 1. unfold lift at 1. simpl strip.
  unfold bind at 1. unfold Dataset_one at 1. rewrite Hd. rewrite Hown. reflexivity.
Qed.

(** Reading the trace of a run. *)
Lemma tasks_of_app l1 l2 : tasks_of (l1 ++ l2) = tasks_of l1 ++ tasks_of l2.
Proof. apply omap_app. Qed.

Lemma tasks_of_tasks l : tasks_of (map E_task l) = l.
Proof. induction l as [|t l IH]; simpl; [done|]. by f_equal. Qed.

Lemma commits_of_app l1 l2 : commits_of (l1 ++ l2) = commits_of l1 ++ commits_of l2.
Proof. apply omap_app. Qed.

Lemma commits_of_tasks l : commits_of (map E_task l) = [].
Proof. by induction l. Qed.

Lemma elem_of_stage fn kw keys items t :
  t ∈ stage fn kw keys items ->
  t_fn t = fn /\ t_kwargs t = kw /\ exists x, x ∈ items /\ t_args t = [x].
Proof.
  unfold stage. revert items.
  induction keys as [|k keys IH]; intros [|x items] Hin; simpl in Hin;
    try by apply elem_of_nil in Hin.
  apply elem_of_cons in Hin as [->|Hin].
  - repeat split. exists x. split; [apply list_elem_of_here | done].
  - destruct (IH _ Hin) as (? & ? & y & ? & ?). repeat split; try done.
    exists y. split; [by apply list_elem_of_further | done].
Qed.

(** Every featurize task of the pipeline carries the keyword arguments of
    the call in [post]. *)
Lemma pipeline_featurize n0 files feats path t :
  t ∈ pipeline rt n0 files feats path ->
  t_fn t = featurize_single_ts ->
  t_kwargs t = featurize_kwargs feats.
Proof.
  unfold pipeline. rewrite !elem_of_app. intros [Hin|[Hin|[Hin|Hin]]] Hfn.
  - apply elem_of_stage in Hin as [Hfn' _]. congruence.
  - apply elem_of_stage in Hin as [Hfn' _]. congruence.
  - by apply elem_of_stage in Hin as (_ & ? & _).
  - repeat (apply elem_of_cons in Hin as [->|Hin]; [done|]).
    by apply elem_of_nil in Hin.
Qed.

Lemma elem_of_new_tasks self w d t :
  E_task t ∈ drop (length (trace w)) (trace (submitted rt self w d)) ->
  t ∈ pipeline rt (pool_seq w) (dataset_files d)
        (select_features rt (request_json self)) (artifact_path rt self w).
Proof.
  destruct (submitted_trace self w d) as [id ->].
  rewrite drop_app_length. intros Hin.
  apply elem_of_cons in Hin as [|Hin]; [done|].
  apply elem_of_app in Hin as [Hin|Hin].
  - apply list_elem_of_fmap in Hin as [t' [Heq Hin]]. by inversion Heq; subst.
  - repeat (apply elem_of_cons in Hin as [|Hin]; [done|]).
    by apply elem_of_nil in Hin.
Qed.

(** Requests that differ in the custom-feature code only. *)
Lemma same_but_custom_lookup d1 d2 k :
  same_but_custom d1 d2 -> k <> "customFeatsCode" ->
  dict_lookup k d1 = dict_lookup k d2.
Proof.
  intros H Hk. induction H as [|[k1 v1] [k2 v2] d1 d2 [Hfst Hsnd] _ IH]; [done|].
  simpl in *. subst k2.
  destruct (String.eqb_spec k k1) as [->|Hne]; [|done].
  destruct (String.eqb_spec k1 "customFeatsCode"); [done|]. by subst.
Qed.

Lemma same_but_custom_code d1 d2 :
  same_but_custom d1 d2 ->
  (dict_lookup "customFeatsCode" d1 = None /\ dict_lookup "customFeatsCode" d2 = None)
  \/ exists s1 s2, dict_lookup "customFeatsCode" d1 = Some (JStr s1)
                   /\ dict_lookup "customFeatsCode" d2 = Some (JStr s2).
Proof.
  intros H. induction H as [|[k1 v1] [k2 v2] d1 d2 [Hfst Hsnd] _ IH]; [by left|].
  cbn [dict_lookup fst snd] in *. subst k2.
  rewrite (String.eqb_sym "customFeatsCode" k1).
  destruct (String.eqb k1 "customFeatsCode"); [|done].
  destruct Hsnd as (s1 & s2 & -> & ->). right. by exists s1, s2.
Qed.

Lemma same_but_custom_select d1 d2 :
  "customFeatsCode" ∉ dask_feature_graph rt ->
  same_but_custom d1 d2 ->
  select_features rt d1 = select_features rt d2.
Proof.
  intros Hcat H. unfold select_features.
  induction H as [|[k1 v1] [k2 v2] d1 d2 [Hfst Hsnd] _ IH]; [done|].
  simpl in *. subst k2.
  destruct (String.eqb_spec k1 "customFeatsCode") as [->|Hne].
  - rewrite bool_decide_eq_false_2 by done. simpl. apply IH.
  - subst v2. destruct (_ && _); simpl; by rewrite IH.
Qed.

(** ** The watcher *)

(** C1. When the awaited future has resolved, the watcher merges the record
    into the active session, clears [task_id], sets [finished] to the current
    time and commits; the committed table holds the record in that state.
    Only then it emits one success notification, whose note names the
    featureset, and after it one refresh action. *)
Theorem C1_success_reconciles_then_notifies self result fset w o k :
  heap w !! fset = Some o ->
  o_id o = Some k ->
  is_Some (table_lookup k (table w)) ->
  pending w = [] ->
  exists w' fset' f',
    _await_featurization rt self (Resolved result) fset w = (Ok tt, w')
    /\ heap w' !! fset'
       = Some {| o_session := Some (active w); o_id := Some k; o_val := f' |}
    /\ task_id f' = None
    /\ finished f' = Some (clock w)
    /\ name f' = name (o_val o)
    /\ table_lookup k (table w') = Some f'
    /\ trace w' =
         trace w ++
         [E_merge (active w) fset fset';
          E_commit (active w) (table w');
          E_action (username (current_user self)) "baselayer/SHOW_NOTIFICATION"
            [("note", "Calculation of featureset '" +:+ py_str rt (name (o_val o))
                      +:+ "' completed.")];
          E_action (username (current_user self)) "cesium/FETCH_FEATURESETS" []].
Proof.
  intros Hh Hk Hrow Hp.
  eexists _, (if bool_decide (o_session o = Some (active w)) then fset else next_ref w),
    (with_finished (Some (clock w)) (with_task_id None (o_val o))).
  split; [by apply (watch_ok self result fset w o k)|].
  destruct w as [hp nr tb ni ds ac pe cl en ps tr];
    cbn -[table_update with_finished with_task_id] in *.
  rewrite lookup_insert_eq.
  repeat split; try reflexivity.
  by apply table_lookup_update.
Qed.

(** The failure path, in the session that holds the record: the watcher
    deletes the record and commits, and the record is in no listing
    afterwards. Then it emits one notification of type error, whose note
    holds the name of the featureset and the text of the failure, and after
    it one refresh action. Nothing is submitted to the pool again. *)
Theorem watcher_failure_in_own_session self e fset w o k :
  heap w !! fset = Some o ->
  o_id o = Some k ->
  o_session o = Some (active w) ->
  pending w = [] ->
  exists w',
    _await_featurization rt self (Failed e) fset w = (Ok tt, w')
    /\ table_lookup k (table w') = None
    /\ (forall u, k ∉ map fst (listing u w'))
    /\ trace w' =
         trace w ++
         [E_delete (active w) fset;
          E_commit (active w) (table w');
          E_action (username (current_user self)) "baselayer/SHOW_NOTIFICATION"
            [("note", "Cannot featurize " +:+ py_str rt (name (o_val o)) +:+ ": "
                      +:+ failure_str e);
             ("type", "error")];
          E_print e;
          E_action (username (current_user self)) "cesium/FETCH_FEATURESETS" []]
    /\ actions_of (drop (length (trace w)) (trace w')) =
         [("baselayer/SHOW_NOTIFICATION",
           [("note", "Cannot featurize " +:+ py_str rt (name (o_val o)) +:+ ": "
                     +:+ failure_str e);
            ("type", "error")]);
          ("cesium/FETCH_FEATURESETS", [])]
    /\ tasks_of (drop (length (trace w)) (trace w')) = []
    /\ pool_seq w' = pool_seq w.
Proof.
  intros Hh Hk Hs Hp.
  eexists. split.
  { apply (watch_fail self e fset w o k); try done. by eapply deletable_own. }
  destruct w as [hp nr tb ni ds ac pe cl en ps tr]; cbn -[table_delete] in *.
  rewrite drop_app_length.
  repeat split; try reflexivity.
  - apply table_lookup_delete.
  - intros u Hin. apply list_elem_of_fmap in Hin as [row [-> Hrow]].
    apply listing_ids in Hrow. cbn -[table_delete] in Hrow.
    apply (table_delete_ids (fst row) tb). by apply list_elem_of_fmap_2.
Qed.


(** C9 (what the code does). On the failure path the watcher does not merge:
    the delete is called, in the active session, on the very object the
    watcher was called with, and no object of the heap is attached anew.
    When that object is attached to another session the call raises, and
    the table is left as it was. *)
Theorem C9_failure_path_deletes_unmerged self e fset w o k :
  heap w !! fset = Some o ->
  o_id o = Some k ->
  pending w = [] ->
  exists res w',
    _await_featurization rt self (Failed e) fset w = (res, w')
    /\ (forall s r r', E_merge s r r' ∉ drop (length (trace w)) (trace w'))
    /\ E_delete (active w) fset ∈ drop (length (trace w)) (trace w')
    /\ heap w' = heap w
    /\ (forall s', o_session o = Some s' -> s' <> active w ->
          res = Raise InvalidRequestError /\ table w' = table w).
Proof.
  intros Hh Hk Hp.
  destruct (deletable (active w) o) eqn:Hdel.
  - eexists _, _. split; [by apply (watch_fail self e fset w o k)|].
    destruct w as [hp nr tb ni ds ac pe cl en ps tr]; cbn -[table_delete] in *.
    rewrite drop_app_length. repeat split.
    + intros s r r' Hin. repeat (apply elem_of_cons in Hin as [Hin|Hin]; [done|]).
      by apply elem_of_nil in Hin.
    + apply list_elem_of_here.
    + rewrite (deletable_other ac s' o k) in Hdel by done. discriminate.
    + rewrite (deletable_other ac s' o k) in Hdel by done. discriminate.
  - eexists _, _. split; [by apply (watch_refused self e fset w o)|].
    destruct w as [hp nr tb ni ds ac pe cl en ps tr]; cbn in *.
    rewrite drop_app_length. repeat split.
    + intros s r r' Hin. apply list_elem_of_singleton in Hin. discriminate.
    + apply list_elem_of_here.
Qed.

(** ** The submission *)

Lemma submitted_clean_trace self w d :
  pending w = [] ->
  trace (submitted rt self w d) =
    trace w
    ++ [E_add (active w) (next_ref w)]
    ++ map E_task (pipeline rt (pool_seq w) (dataset_files d)
                     (select_features rt (request_json self))
                     (artifact_path rt self w))
    ++ [E_commit (active w) (table (submitted rt self w d));
        E_spawn (terminal_key rt (pool_seq w) (dataset_files d)) (next_ref w);
        E_action (username (current_user self)) "cesium/FETCH_FEATURESETS" [];
        E_respond (RespSuccess (DFeatureset (Some (next_id w))
                                            (job_record rt self w d)))].
Proof.
  intros Hp. unfold submitted. rewrite (flush_committing self w d Hp).
  destruct w as [hp nr tb ni ds ac pe cl en ps tr]. cbn in Hp. subst pe.
  unfold committing. run_handler.
  rewrite lookup_total_insert_eq. cbn [o_id o_val].
  by rewrite <- !app_assoc.
Qed.

Lemma pipeline_last n0 files feats path :
  last (pipeline rt n0 files feats path) =
    Some {| t_key := terminal_key rt n0 files; t_fn := save_featureset;
            t_args := [AFuture (pool_key rt impute_featureset
                                  (S (n0 + length files + length files + length files)));
                       AStr path];
            t_kwargs := [("labels",
                          AFutures (keys_from rt ts_label_of (n0 + length files)
                                      (length files)))] |}.
Proof.
  unfold pipeline. rewrite !app_assoc.
  match goal with |- last (?l ++ [?a; ?b; ?c]) = _ =>
    change (l ++ [a; b; c]) with (l ++ [a; b] ++ [c]) end.
  by rewrite app_assoc, last_snoc.
Qed.

(** C3. A submission with a selected feature, for a dataset of the
    requester, succeeds: the response carries the record with [task_id] the
    key of the persist task, which is the last task submitted and is not
    empty, and with [finished] unset; the commit whose table holds that
    record comes before the response. *)
Theorem C3_post_commits_pending_record_then_succeeds self w v did c d :
  dict_lookup "datasetID" (request_json self) = Some v ->
  py_int rt v = Ok did ->
  select_features rt (request_json self) <> [] ->
  dict_lookup "customFeatsCode" (request_json self) = Some (JStr c) ->
  List.filter (fun d => Z.eqb (dataset_id d) did) (datasets w) = [d] ->
  is_owned_by d (current_user self) = true ->
  pending w = [] ->
  (forall fn n, pool_key rt fn n <> "") ->
  exists w' f key t before,
    post rt self w = (Ok tt, w')
    /\ last (tasks_of (trace w')) = Some t
    /\ t_fn t = save_featureset
    /\ t_key t = key
    /\ key <> ""
    /\ task_id f = Some key
    /\ finished f = None
    /\ table_lookup (next_id w) (table w') = Some f
    /\ trace w' =
         before ++
         [E_commit (active w) (table w');
          E_spawn key (next_ref w);
          E_action (username (current_user self)) "cesium/FETCH_FEATURESETS" [];
          E_respond (RespSuccess (DFeatureset (Some (next_id w)) f))].
Proof.
  intros Hid Hint Hsel Hc Hd Hown Hp Hkey.
  exists (submitted rt self w d), (job_record rt self w d),
    (terminal_key rt (pool_seq w) (dataset_files d)).
  eexists _, (trace w ++ [E_add (active w) (next_ref w)]
              ++ map E_task (pipeline rt (pool_seq w) (dataset_files d)
                               (select_features rt (request_json self))
                               (artifact_path rt self w))).
  split; [by eapply post_run|].
  rewrite (submitted_clean_trace self w d Hp).
  destruct (submitted_store self w d Hp) as (Htbl & _).
  rewrite !tasks_of_app, tasks_of_tasks.
  change (tasks_of [E_add _ _]) with (@nil Task).
  change (tasks_of [E_commit _ _; _; _; _]) with (@nil Task).
  cbn [app]. rewrite app_nil_r, last_app, pipeline_last.
  repeat split; try reflexivity.
  - apply Hkey.
  - rewrite Htbl. apply table_lookup_update, table_lookup_app_new.
  - by rewrite <- !app_assoc.
Qed.

(** C4. The features in use are the keys of the request that are in the
    catalog and whose value is true: other keys are dropped. When none is
    left, the response is the validation error, and neither a record nor a
    task has been made; otherwise the list is the one of the record and of
    every featurize task. *)
Theorem C4_features_are_filtered_and_required self w v did :
  dict_lookup "datasetID" (request_json self) = Some v ->
  py_int rt v = Ok did ->
  (forall f, f ∈ select_features rt (request_json self) <->
     exists selected, (f, selected) ∈ request_json self
                      /\ f ∈ dask_feature_graph rt /\ truthy selected = true)
  /\ (select_features rt (request_json self) = [] ->
      exists w',
        post rt self w = (Ok tt, w')
        /\ trace w' = trace w ++
             [E_respond (RespError "At least one feature must be selected.")]
        /\ heap w' = heap w /\ table w' = table w /\ pending w' = pending w
        /\ pool_seq w' = pool_seq w)
  /\ (forall c d,
      select_features rt (request_json self) <> [] ->
      dict_lookup "customFeatsCode" (request_json self) = Some (JStr c) ->
      List.filter (fun d => Z.eqb (dataset_id d) did) (datasets w) = [d] ->
      is_owned_by d (current_user self) = true ->
      exists w' id f,
        post rt self w = (Ok tt, w')
        /\ E_respond (RespSuccess (DFeatureset id f)) ∈ trace w'
        /\ features_list f = select_features rt (request_json self)
        /\ forall t, E_task t ∈ drop (length (trace w)) (trace w') ->
             t_fn t = featurize_single_ts ->
             ("features_to_use", AStrs (select_features rt (request_json self)))
               ∈ t_kwargs t).
Proof.
  intros Hid Hint. split; [|split].
  - intros f. unfold select_features.
    rewrite list_elem_of_fmap. split.
    + intros [[k sel] [-> Hin]].
      apply list_elem_of_In, filter_In in Hin as [Hin Hb].
      apply andb_true_iff in Hb as [Hcat Hsel]. apply bool_decide_eq_true in Hcat.
      exists sel. by rewrite list_elem_of_In.
    + intros (sel & Hin & Hcat & Hsel). exists (f, sel). split; [done|].
      apply list_elem_of_In, filter_In. split; [by apply list_elem_of_In|].
      cbn [fst snd]. by rewrite bool_decide_eq_true_2, Hsel.
  - intros Hsel. eexists. split; [by eapply post_invalid|].
    by destruct w.
  - intros c d Hsel Hc Hd Hown.
    destruct (submitted_trace self w d) as [id Htr].
    exists (submitted rt self w d), id, (job_record rt self w d).
    split; [by eapply post_run|]. split; [|split; [done|]].
    + rewrite Htr, !elem_of_app. right. right. right.
      do 3 apply list_elem_of_further. apply list_elem_of_here.
    + intros t Hin Hfn. apply elem_of_new_tasks in Hin.
      rewrite (pipeline_featurize _ _ _ _ _ Hin Hfn). apply list_elem_of_here.
Qed.

(** C7 (amended). For a request with a selected feature and a code string,
    whose dataset is not the requester's, [post] raises [AccessError] and
    leaves the world as it found it: no record, no pending work, no task. *)
Theorem C7_foreign_dataset_is_denied_after_validation self w v did c d :
  dict_lookup "datasetID" (request_json self) = Some v ->
  py_int rt v = Ok did ->
  select_features rt (request_json self) <> [] ->
  dict_lookup "customFeatsCode" (request_json self) = Some (JStr c) ->
  List.filter (fun d => Z.eqb (dataset_id d) did) (datasets w) = [d] ->
  is_owned_by d (current_user self) = false ->
  post rt self w = (Raise (AccessError "No such data set"), w).
Proof. apply post_denied. Qed.

(** C5 (amended). A successful [post] adds the record and then submits the
    tasks of [pipeline], no other: the loads, the labels of the loaded series,
    the features of the loaded series, the assembling of the features with
    the loaded series, the imputation, and the saving of the imputed set with
    the labels to the path made from the identifier drawn at the start of the
    call. That path is the [file_uri] of the record, and the key handed to
    the watcher is the key of the saving task, the last of the pipeline. *)
Theorem C5_post_submits_the_pipeline self w v did c d :
  dict_lookup "datasetID" (request_json self) = Some v ->
  py_int rt v = Ok did ->
  select_features rt (request_json self) <> [] ->
  dict_lookup "customFeatsCode" (request_json self) = Some (JStr c) ->
  List.filter (fun d => Z.eqb (dataset_id d) did) (datasets w) = [d] ->
  is_owned_by d (current_user self) = true ->
  let path := pjoin (features_folder self) (uuid4 rt (entropy w) +:+ "_featureset.npz") in
  let tasks := pipeline rt (pool_seq w) (dataset_files d)
                 (select_features rt (request_json self)) path in
  exists w' id f tbl future saving,
    post rt self w = (Ok tt, w')
    /\ trace w' =
         trace w
         ++ [E_add (active w) (next_ref w)]
         ++ map E_task tasks
         ++ [E_commit (active w) tbl;
             E_spawn future (next_ref w);
             E_action (username (current_user self)) "cesium/FETCH_FEATURESETS" [];
             E_respond (RespSuccess (DFeatureset id f))]
    /\ tasks_of (drop (length (trace w)) (trace w')) = tasks
    /\ file_uri f = path
    /\ last tasks = Some saving
    /\ t_fn saving = save_featureset
    /\ t_key saving = future
    /\ AStr path ∈ t_args saving.
Proof.
  intros Hid Hint Hsel Hc Hd Hown path tasks.
  destruct (submitted_trace self w d) as [id Htr].
  exists (submitted rt self w d), id, (job_record rt self w d).
  eexists _, _, _.
  split; [by eapply post_run|].
  split; [exact Htr|].
  rewrite Htr, drop_app_length. cbn [app].
  change (E_add ?s ?r :: ?l) with ([E_add s r] ++ l).
  rewrite !tasks_of_app, tasks_of_tasks.
  change (tasks_of [E_add _ _]) with (@nil Task).
  change (tasks_of [E_commit _ _; _; _; _]) with (@nil Task).
  cbn [app]. rewrite app_nil_r.
  split; [done|]. split; [done|].
  split; [apply pipeline_last|].
  repeat split. cbn [t_args]. apply list_elem_of_further, list_elem_of_here.
Qed.

(** C10. Two requests that differ in the string under [customFeatsCode]
    only have the same effect, as long as that key is no feature of the
    catalog; and what a successful [post] passes as [custom_script_path] and
    stores as [custom_features_script] is [None]. *)
Theorem C10_custom_code_has_no_effect self1 self2 w :
  current_user self1 = current_user self2 ->
  features_folder self1 = features_folder self2 ->
  same_but_custom (request_json self1) (request_json self2) ->
  "customFeatsCode" ∉ dask_feature_graph rt ->
  post rt self1 w = post rt self2 w
  /\ (forall v did c d,
      dict_lookup "datasetID" (request_json self1) = Some v ->
      py_int rt v = Ok did ->
      select_features rt (request_json self1) <> [] ->
      dict_lookup "customFeatsCode" (request_json self1) = Some (JStr c) ->
      List.filter (fun d => Z.eqb (dataset_id d) did) (datasets w) = [d] ->
      is_owned_by d (current_user self1) = true ->
      exists w' id f,
        post rt self1 w = (Ok tt, w')
        /\ E_respond (RespSuccess (DFeatureset id f)) ∈ trace w'
        /\ custom_features_script f = None
        /\ forall t, E_task t ∈ drop (length (trace w)) (trace w') ->
             t_fn t = featurize_single_ts ->
             ("custom_script_path", ANone) ∈ t_kwargs t).
Proof.
  intros Hu Hf Hsame Hcat. split.
  - destruct self1 as [u1 f1 d1], self2 as [u2 f2 d2]. cbn in Hu, Hf, Hsame. subst u2 f2.
    unfold post, post_while, getitem. cbn [request_json].
    rewrite (same_but_custom_lookup d1 d2 "datasetID" Hsame) by done.
    rewrite (same_but_custom_select d1 d2 Hcat Hsame).
    unfold dict_get.
    rewrite (same_but_custom_lookup d1 d2 "featuresetName" Hsame) by done.
    destruct (same_but_custom_code d1 d2 Hsame) as [[-> ->]|(s1 & s2 & -> & ->)];
      reflexivity.
  - intros v did c d Hid Hint Hsel Hc Hd Hown.
    destruct (submitted_trace self1 w d) as [id Htr].
    exists (submitted rt self1 w d), id, (job_record rt self1 w d).
    split; [by eapply post_run|]. split; [|split; [done|]].
    + rewrite Htr, !elem_of_app. right. right. right.
      do 3 apply list_elem_of_further. apply list_elem_of_here.
    + intros t Hin Hfn. apply elem_of_new_tasks in Hin.
      rewrite (pipeline_featurize _ _ _ _ _ Hin Hfn).
      apply list_elem_of_further, list_elem_of_here.
Qed.

(** ** The life of a record, from submission to reconciliation *)

Lemma elem_of_listing u w row :
  row ∈ listing u w <-> row ∈ table w /\ project (snd row) ∈ projects u.
Proof.
  unfold listing. rewrite list_elem_of_In, in_flat_map. split.
  - intros (p & Hp & Hrow). apply filter_In in Hrow as [Hrow Heq].
    apply Nat.eqb_eq in Heq. subst p. split; by apply list_elem_of_In.
  - intros [Hrow Hp]. exists (project (snd row)). split; [by apply list_elem_of_In|].
    apply filter_In. split; [by apply list_elem_of_In | apply Nat.eqb_refl].
Qed.

Lemma elem_of_table_update k f g t :
  (k, g) ∈ t -> (k, f) ∈ table_update k f t.
Proof.
  intros Hin. unfold table_update. apply list_elem_of_In, in_map_iff.
  exists (k, g). simpl. rewrite Nat.eqb_refl. split; [done | by apply list_elem_of_In].
Qed.

Lemma table_lookup_app_fresh id f t :
  table_lookup id t = None -> table_lookup id (t ++ [(id, f)]) = Some f.
Proof.
  unfold table_lookup. induction t as [|[i g] t IH]; simpl.
  - intros _. by rewrite Nat.eqb_refl.
  - destruct (Nat.eqb_spec i id); [done | exact IH].
Qed.

(** [post], with a commit of the session during its await. *)
Lemma post_while_committer_run self w v did c d :
  dict_lookup "datasetID" (request_json self) = Some v ->
  py_int rt v = Ok did ->
  select_features rt (request_json self) <> [] ->
  dict_lookup "customFeatsCode" (request_json self) = Some (JStr c) ->
  List.filter (fun d => Z.eqb (dataset_id d) did) (datasets w) = [d] ->
  is_owned_by d (current_user self) = true ->
  pending w = [] ->
  let f := job_record rt self w d in
  let t0 := table w ++ [(next_id w, with_task_id None f)] in
  let t1 := table_update (next_id w) f t0 in
  exists w1,
    post_while rt committer self w = (Ok tt, w1)
    /\ trace w1 =
         trace w
         ++ [E_add (active w) (next_ref w); E_commit (active w) t0]
         ++ map E_task (pipeline rt (pool_seq w) (dataset_files d)
                          (select_features rt (request_json self))
                          (artifact_path rt self w))
         ++ [E_commit (active w) t1;
             E_spawn (terminal_key rt (pool_seq w) (dataset_files d)) (next_ref w);
             E_action (username (current_user self)) "cesium/FETCH_FEATURESETS" [];
             E_respond (RespSuccess (DFeatureset (Some (next_id w)) f))].
Proof.
  intros Hid Hint Hsel Hc Hd Hown Hp f t0 t1. subst f t0 t1.
  unfold post_while, getitem. rewrite Hid, Hc.
  destruct (select_features rt (request_json self)) as [|f0 fs] eqn:Hfs; [done|].
  unfold bind at 1. unfold lift at 1. unfold bind at 1. unfold lift at 1. rewrite Hint.
  unfold bind at 1. unfold lift at 1. unfold bind at 1. unfold lift at 1. simpl strip.
  unfold bind at 1. unfold Dataset_one at 1. rewrite Hd. rewrite Hown. simpl negb. cbv iota.
  unfold job_record, artifact_path, terminal_key, pipeline.
  rewrite Hfs.
  destruct w as [hp nr tb ni ds ac pe cl en ps tr]. cbn in Hp. subst pe.
  eexists. split.
  { do 4 step.
    eapply bind_Ok.
    { unfold _get_client, committer, DBSession, Session_commit.
      run_handler. unfold flush.
      cbn [pending active next_ref app List.filter of_session fst snd fold_left].
      unfold of_session. cbn [fst]. rewrite Nat.eqb_refl.
      cbn [pending active next_ref app List.filter of_session fst snd fold_left negb].
      erewrite flush_one_new; [ | apply lookup_insert_eq | reflexivity ].
      run_handler. rewrite insert_insert_eq. reflexivity. }
    cbv beta.
    do 8 step.
    rewrite !insert_insert_eq, ?length_map, ?length_keys_from.
    unfold Session_commit, spawn_callback, to_data, success, action.
    run_handler. unfold flush.
    cbn [pending active next_ref app List.filter of_session fst snd fold_left].
    unfold of_session. cbn [fst]. rewrite Nat.eqb_refl.
    cbn [pending active next_ref app List.filter of_session fst snd fold_left negb].
    erewrite flush_one_dirty; [ | apply lookup_insert_eq | reflexivity ].
    run_handler. rewrite ?lookup_total_insert_eq. run_handler.
    reflexivity. }
  cbn [trace].
  rewrite ?map_app, <- ?app_assoc. cbn [app map].
  reflexivity.
Qed.

(** The life of a record when the watcher deletes in the session of the
    submission. At the commit of [post] the record is pending: [task_id] is
    set and [finished] is not. At the commit of the watcher the record is
    completed ([task_id] cleared, [finished] set) when the future has
    resolved, in whichever session the watcher is resumed, and it is gone
    from the table and from every listing when the future has failed and the
    watcher is resumed in the session of the submission. *)
Theorem record_life_in_one_session self w v did c d :
  dict_lookup "datasetID" (request_json self) = Some v ->
  py_int rt v = Ok did ->
  select_features rt (request_json self) <> [] ->
  dict_lookup "customFeatsCode" (request_json self) = Some (JStr c) ->
  List.filter (fun d => Z.eqb (dataset_id d) did) (datasets w) = [d] ->
  is_owned_by d (current_user self) = true ->
  pending w = [] ->
  exists w1,
    post rt self w = (Ok tt, w1)
    /\ (exists t1,
          commits_of (drop (length (trace w)) (trace w1)) = [t1]
          /\ job_invariant PENDING (table_lookup (next_id w) t1))
    /\ forall s now future,
       (final_state future = DELETED -> s = active w) ->
       exists w2 t2,
         _await_featurization rt self future (next_ref w) (resumed s now w1) = (Ok tt, w2)
         /\ commits_of (drop (length (trace w1)) (trace w2)) = [t2]
         /\ t2 = table w2
         /\ job_invariant (final_state future) (table_lookup (next_id w) t2)
         /\ (final_state future = DELETED ->
             forall u, next_id w ∉ map fst (listing u w2)).
Proof.
  intros Hid Hint Hsel Hc Hd Hown Hp.
  exists (submitted rt self w d). split; [by eapply post_run|].
  destruct (submitted_store self w d Hp) as (Htbl & Hheap & Hpend & Hact).
  pose proof (table_lookup_update (next_id w) (job_record rt self w d) _
                (table_lookup_app_new (next_id w) (job_record rt self w d) (table w)))
    as Hrow.
  rewrite <- Htbl in Hrow.
  split.
  - exists (table (submitted rt self w d)).
    rewrite (submitted_clean_trace self w d Hp), drop_app_length.
    rewrite !commits_of_app, commits_of_tasks. split; [done|].
    rewrite Hrow. cbn. repeat split; try done.
  - intros s now [result|e] Hsame.
    + eexists _, _. split.
      { eapply (watch_ok self result (next_ref w) (resumed s now (submitted rt self w d))
                  _ (next_id w)); [exact Hheap | done | exact Hpend]. }
      cbn [resumed heap table trace active clock next_ref o_val o_session].
      rewrite trace_set_trace, table_set_trace, drop_app_length.
      split; [done|]. split; [done|].
      cbn [final_state set_table set_next_ref set_heap table].
      rewrite table_lookup_update by (by rewrite Hrow). cbn.
      repeat split; try done.
    + specialize (Hsame eq_refl). subst s.
      eexists _, _. split.
      { eapply (watch_fail self e (next_ref w)
                  (resumed (active w) now (submitted rt self w d))
                  _ (next_id w)); [exact Hheap | done | exact Hpend |].
        cbn [resumed active]. by eapply deletable_own. }
      cbn [resumed heap table trace active clock next_ref o_val o_session].
      rewrite trace_set_trace, table_set_trace, drop_app_length.
      split; [done|]. split; [done|].
      cbn [final_state set_table table].
      rewrite table_lookup_delete. split; [done|].
      intros _ u Hin. apply list_elem_of_fmap in Hin as [row [Hk Hrow']].
      apply listing_ids in Hrow'. rewrite table_set_trace in Hrow'.
      unfold resumed in Hrow'. cbn [set_table table] in Hrow'.
      apply (table_delete_ids (next_id w) (table (submitted rt self w d))).
      rewrite Hk in Hrow' |- *. by apply list_elem_of_fmap_2.
Qed.

(** C8 (what the code does). The invariant does not hold at every point.
    When the future has failed and the watcher is resumed in another session
    than the one of the submission, the delete raises: there is no commit,
    and the record stays in the table and in the listing of the requester
    with [task_id] set, although the job has ended. And when another
    coroutine commits the session during the await of [post], that commit
    stores the record without [task_id] and without [finished]; the commit
    of [post] sets [task_id] afterwards. *)
Theorem C8_invariant_is_broken self w v did c d :
  dict_lookup "datasetID" (request_json self) = Some v ->
  py_int rt v = Ok did ->
  select_features rt (request_json self) <> [] ->
  dict_lookup "customFeatsCode" (request_json self) = Some (JStr c) ->
  List.filter (fun d => Z.eqb (dataset_id d) did) (datasets w) = [d] ->
  is_owned_by d (current_user self) = true ->
  pending w = [] ->
  table_lookup (next_id w) (table w) = None ->
  (exists w1,
     post rt self w = (Ok tt, w1)
     /\ forall s now e,
        s <> active w ->
        exists w2 f,
          _await_featurization rt self (Failed e) (next_ref w) (resumed s now w1)
            = (Raise InvalidRequestError, w2)
          /\ commits_of (drop (length (trace w1)) (trace w2)) = []
          /\ table_lookup (next_id w) (table w2) = Some f
          /\ is_Some (task_id f)
          /\ ~ job_invariant (final_state (Failed e))
                 (table_lookup (next_id w) (table w2))
          /\ next_id w ∈ map fst (listing (current_user self) w2))
  /\ (exists w1 t0 t1 f0,
        post_while rt committer self w = (Ok tt, w1)
        /\ commits_of (drop (length (trace w)) (trace w1)) = [t0; t1]
        /\ table_lookup (next_id w) t0 = Some f0
        /\ task_id f0 = None
        /\ finished f0 = None
        /\ ~ job_invariant PENDING (table_lookup (next_id w) t0)
        /\ job_invariant PENDING (table_lookup (next_id w) t1)).
Proof.
  intros Hid Hint Hsel Hc Hd Hown Hp Hfresh. split.
  - exists (submitted rt self w d). split; [by eapply post_run|].
    destruct (submitted_store self w d Hp) as (Htbl & Hheap & Hpend & Hact).
    pose proof (table_lookup_update (next_id w) (job_record rt self w d) _
                  (table_lookup_app_new (next_id w) (job_record rt self w d) (table w)))
      as Hrow.
    rewrite <- Htbl in Hrow.
    intros s now e Hne.
    eexists _, (job_record rt self w d). split.
    { eapply (watch_refused self e (next_ref w)
                (resumed s now (submitted rt self w d)) _ Hheap).
      cbn [resumed active].
      eapply (deletable_other s (active w)); [reflexivity | reflexivity | done]. }
    rewrite trace_set_trace, table_set_trace.
    cbn [resumed trace table]. rewrite drop_app_length.
    split; [done|]. split; [exact Hrow|]. split; [by eexists|].
    split.
    { rewrite Hrow. cbn. intros (_ & _ & Hdel). by apply Hdel. }
    apply (list_elem_of_fmap_2 fst _ (next_id w, job_record rt self w d)).
    apply elem_of_listing. rewrite table_set_trace. cbn [resumed table snd].
    split.
    + rewrite Htbl. eapply elem_of_table_update.
      apply elem_of_app. right. apply list_elem_of_here.
    + unfold is_owned_by in Hown. by apply bool_decide_eq_true in Hown.
  - destruct (post_while_committer_run self w v did c d Hid Hint Hsel Hc Hd Hown Hp)
      as (w1 & Hrun & Htr).
    exists w1. eexists _, _, (with_task_id None (job_record rt self w d)).
    split; [exact Hrun|].
    rewrite Htr, drop_app_length.
    change [E_add (active w) (next_ref w); E_commit (active w) ?t]
      with ([E_add (active w) (next_ref w)] ++ [E_commit (active w) t]).
    rewrite !commits_of_app, commits_of_tasks.
    split; [reflexivity|].
    rewrite (table_lookup_app_fresh _ _ _ Hfresh).
    split; [done|]. split; [done|]. split; [done|]. split.
    + cbn. intros (Htask & _). destruct (proj2 Htask eq_refl) as [x Hx]. discriminate.
    + rewrite table_lookup_update by (by rewrite (table_lookup_app_fresh _ _ _ Hfresh)).
      cbn. repeat split; try done.
Qed.

(** ** The pool on the submitted pipeline *)

Section Pool.

Context (wk : Workers).

Lemma run_pool_app l1 l2 rs :
  run_pool wk (l1 ++ l2) rs = run_pool wk l2 (run_pool wk l1 rs).
Proof. apply fold_left_app. Qed.

Lemma run_pool_notin tasks : forall rs k,
  k ∉ map t_key tasks -> run_pool wk tasks rs !! k = rs !! k.
Proof.
  induction tasks as [|t ts IH]; intros rs k Hk; simpl; [done|].
  simpl in Hk. apply not_elem_of_cons in Hk as [Hne Hk].
  rewrite IH by done. by apply lookup_insert_ne.
Qed.

Lemma stage_keys fn kw : forall keys items,
  length keys = length items -> map t_key (stage fn kw keys items) = keys.
Proof.
  induction keys as [|k keys IH]; intros [|x items] Hlen; simpl in *; try done.
  f_equal. apply IH. lia.
Qed.

Lemma resolve_ext rs rs' a :
  (forall k, k ∈ arg_futures a -> rs' !! k = rs !! k) ->
  resolve rs' a = resolve rs a.
Proof.
  intros H. destruct a as [k|ks| | | |]; simpl in *; try done.
  - unfold future_result. rewrite H; [done|]. apply list_elem_of_here.
  - f_equal. apply map_ext_in. intros k Hk. unfold future_result.
    rewrite H; [done|]. by apply list_elem_of_In.
Qed.

Lemma resolve_kwargs_ext rs rs' (kw : list (string * Arg)) :
  (forall a, a ∈ map snd kw -> arg_futures a = []) ->
  map (fun kw => (fst kw, resolve rs' (snd kw))) kw
  = map (fun kw => (fst kw, resolve rs (snd kw))) kw.
Proof.
  intros H. apply map_ext_in. intros [n a] Hin. simpl. f_equal.
  apply resolve_ext. intros k Hk.
  rewrite (H a) in Hk; [by apply elem_of_nil in Hk|].
  apply list_elem_of_In, in_map_iff. by exists (n, a).
Qed.

(** The outcomes of one [client.map]: each task is the call on its item,
    awaited in the results the stage started from. *)
Lemma run_stage fn kw : forall keys items rs,
  length keys = length items ->
  NoDup keys ->
  (forall x k, x ∈ items -> k ∈ arg_futures x -> k ∉ keys) ->
  (forall a, a ∈ map snd kw -> arg_futures a = []) ->
  map (future_result (run_pool wk (stage fn kw keys items) rs)) keys
  = map (fun x => call wk fn [resolve rs x]
                    (map (fun kw => (fst kw, resolve rs (snd kw))) kw)) items.
Proof.
  induction keys as [|k keys IH]; intros [|x items] rs Hlen Hnd Hdep Hkw;
    simpl in *; try done.
  apply NoDup_cons in Hnd as [Hk Hnd].
  f_equal.
  - unfold future_result. rewrite run_pool_notin.
    + by rewrite lookup_insert_eq.
    + rewrite stage_keys by lia. done.
  - rewrite IH; try done; [|lia|].
    + apply map_ext_in. intros y Hy. apply list_elem_of_In in Hy.
      assert (Hres : resolve (<[k:=exec wk rs
                 {| t_key := k; t_fn := fn; t_args := [x]; t_kwargs := kw |}]> rs) y
                     = resolve rs y).
      { apply resolve_ext. intros k' Hk'. apply lookup_insert_ne.
        intros <-. apply (Hdep y k); [by apply list_elem_of_further | done |].
        apply list_elem_of_here. }
      rewrite Hres. f_equal. by apply resolve_kwargs_ext.
    + intros y k' Hy Hk' Hin. apply (Hdep y k'); [by apply list_elem_of_further | done |].
      by apply list_elem_of_further.
Qed.

Lemma future_result_ext rs rs' (ks : list string) :
  (forall k, k ∈ ks -> rs' !! k = rs !! k) ->
  map (future_result rs') ks = map (future_result rs) ks.
Proof.
  intros H. apply map_ext_in. intros k Hk. unfold future_result.
  rewrite H; [done|]. by apply list_elem_of_In.
Qed.

Lemma gather_resolved vs : gather (map Resolved vs) = inr vs.
Proof. induction vs as [|v vs IH]; simpl; [done|]. by rewrite IH. Qed.

Lemma rows_of_features rows : rows_of (map VFeatures rows) = Some rows.
Proof. induction rows as [|r rows IH]; simpl; [done|]. by rewrite IH. Qed.

Lemma labels_of_labels ls : labels_of (map VLabel ls) = Some ls.
Proof. induction ls as [|l ls IH]; simpl; [done|]. by rewrite IH. Qed.

(** With [raise_exceptions=False] the stage has a row for every series. *)
Lemma featurize_row_lenient ts feats :
  featurize_row ts feats false = inr (lenient_row ts feats).
Proof.
  induction feats as [|f feats IH]; simpl; [done|].
  rewrite IH. by destruct (ts_compute ts f).
Qed.

Lemma loaded files : forall tss,
  Forall2 (fun u ts => load_file wk u = inr ts) files tss ->
  map (fun u => of_sum VTimeSeries (load_file wk u)) files
  = map Resolved (map VTimeSeries tss).
Proof.
  induction files as [|u files IH]; intros tss H; inversion H; subst; simpl; [done|].
  f_equal; [|by apply IH]. by match goal with H : load_file _ _ = _ |- _ => rewrite H end.
Qed.



Lemma run_graph (files feats : list string) (path : string)
    (kL kB kF : list string) (kA kI kS : string) (tss : list TimeSeries) :
  length kL = length files -> length kB = length files ->
  length kF = length files ->
  NoDup (kL ++ kB ++ kF ++ [kA; kI; kS]) ->
  Forall2 (fun u ts => load_file wk u = inr ts) files tss ->
  let rs :=
    run_pool wk
      (stage time_series_load [] kL (map AStr files)
       ++ stage ts_label_of [] kB (map AFuture kL)
       ++ stage featurize_single_ts (featurize_kwargs feats) kF (map AFuture kL)
       ++ [ {| t_key := kA; t_fn := assemble_featureset;
               t_args := [AFutures kF; AFutures kL]; t_kwargs := [] |};
            {| t_key := kI; t_fn := impute_featureset;
               t_args := [AFuture kA]; t_kwargs := [("inplace", ABool false)] |};
            {| t_key := kS; t_fn := save_featureset;
               t_args := [AFuture kI; AStr path];
               t_kwargs := [("labels", AFutures kB)] |} ]) ∅ in
  future_result rs kA
    = Resolved (VFeatureset (map (fun ts => lenient_row ts feats) tss))
  /\ future_result rs kS
    = Resolved (VSaved path
        (map (impute_row (fill_value wk))
           (map (fun ts => lenient_row ts feats) tss))
        (map ts_label tss)).
Proof.
  intros HL HB HF Hnd Hload rs.
  apply NoDup_app in Hnd as (HndL & HLrest & Hnd).
  apply NoDup_app in Hnd as (HndB & HBrest & Hnd).
  apply NoDup_app in Hnd as (HndF & HFrest & Hnd).
  apply NoDup_cons in Hnd as (HA & Hnd).
  apply NoDup_cons in Hnd as (HI & _).
  assert (Hlen : length tss = length files) by (symmetry; exact (Forall2_length _ _ _ Hload)).
  set (rs1 := run_pool wk (stage time_series_load [] kL (map AStr files)) ∅).
  set (rs2 := run_pool wk (stage ts_label_of [] kB (map AFuture kL)) rs1).
  set (rs3 := run_pool wk (stage featurize_single_ts (featurize_kwargs feats) kF
                             (map AFuture kL)) rs2).
  (* the loads *)
  assert (H1 : map (future_result rs1) kL = map Resolved (map VTimeSeries tss)).
  { unfold rs1. rewrite run_stage; try done.
    - rewrite map_map. simpl. by apply loaded.
    - by rewrite length_map.
    - intros x k Hx Hk. apply list_elem_of_In, in_map_iff in Hx as (u & <- & _).
      by apply elem_of_nil in Hk.
    - intros a Ha. by apply elem_of_nil in Ha. }
  assert (HdepL : forall (keys : list string) x k,
            (forall k, k ∈ kL -> k ∉ keys) ->
            x ∈ map AFuture kL -> k ∈ arg_futures x -> k ∉ keys).
  { intros keys x k Hdisj Hx Hk.
    apply list_elem_of_In, in_map_iff in Hx as (k' & <- & Hk').
    simpl in Hk. apply list_elem_of_singleton in Hk as ->.
    apply Hdisj. by apply list_elem_of_In. }
  assert (HLB : forall k, k ∈ kL -> k ∉ kB).
  { intros k Hk Hin. apply (HLrest k Hk). apply elem_of_app. by left. }
  assert (HLF : forall k, k ∈ kL -> k ∉ kF).
  { intros k Hk Hin. apply (HLrest k Hk). rewrite !elem_of_app. right. by left. }
  assert (HBF : forall k, k ∈ kB -> k ∉ kF).
  { intros k Hk Hin. apply (HBrest k Hk). rewrite !elem_of_app. by left. }
  (* the labels *)
  assert (H2B : map (future_result rs2) kB
                = map Resolved (map VLabel (map ts_label tss))).
  { unfold rs2. rewrite run_stage; try done.
    - rewrite map_map. simpl.
      rewrite <- (map_map (future_result rs1)
                    (fun o => call wk ts_label_of [R_value o] [])).
      rewrite H1. by rewrite !map_map.
    - by rewrite length_map, HB, HL.
    - intros x k. by apply HdepL.
    - intros a Ha. by apply elem_of_nil in Ha. }
  assert (H2L : map (future_result rs2) kL = map Resolved (map VTimeSeries tss)).
  { rewrite <- H1. apply future_result_ext. intros k Hk. unfold rs2.
    apply run_pool_notin. rewrite stage_keys by (by rewrite length_map, HB, HL).
    by apply HLB. }
  (* the features *)
  assert (H3F : map (future_result rs3) kF
                = map Resolved (map VFeatures
                    (map (fun ts => lenient_row ts feats) tss))).
  { unfold rs3. rewrite run_stage; try done.
    - rewrite map_map. simpl.
      rewrite <- (map_map (future_result rs2)
                    (fun o => call wk featurize_single_ts [R_value o]
                       [("features_to_use", R_strs feats);
                        ("custom_script_path", R_none);
                        ("raise_exceptions", R_bool false)])).
      rewrite H2L. rewrite !map_map. apply map_ext. intros ts.
      cbn. by rewrite featurize_row_lenient.
    - by rewrite length_map, HF, HL.
    - intros x k. by apply HdepL.
    - intros a Ha. simpl in Ha.
      repeat (apply elem_of_cons in Ha as [-> | Ha]; [done|]).
      by apply elem_of_nil in Ha. }
  assert (Hkeep3 : forall k, k ∉ kF -> rs3 !! k = rs2 !! k).
  { intros k Hk. unfold rs3. apply run_pool_notin.
    by rewrite stage_keys by (by rewrite length_map, HF, HL). }
  assert (H3L : map (future_result rs3) kL = map Resolved (map VTimeSeries tss)).
  { rewrite <- H2L. apply future_result_ext. intros k Hk. by apply Hkeep3, HLF. }
  assert (H3B : map (future_result rs3) kB
                = map Resolved (map VLabel (map ts_label tss))).
  { rewrite <- H2B. apply future_result_ext. intros k Hk. by apply Hkeep3, HBF. }
  (* the three single tasks *)
  assert (Hrs : rs = run_pool wk
      [ {| t_key := kA; t_fn := assemble_featureset;
           t_args := [AFutures kF; AFutures kL]; t_kwargs := [] |};
        {| t_key := kI; t_fn := impute_featureset;
           t_args := [AFuture kA]; t_kwargs := [("inplace", ABool false)] |};
        {| t_key := kS; t_fn := save_featureset;
           t_args := [AFuture kI; AStr path];
           t_kwargs := [("labels", AFutures kB)] |} ] rs3).
  { unfold rs. by rewrite !run_pool_app. }
  assert (HAI : kA <> kI).
  { intros ->. apply HA. apply list_elem_of_here. }
  assert (HAS : kA <> kS).
  { intros ->. apply HA. apply list_elem_of_further, list_elem_of_here. }
  assert (HIS : kI <> kS).
  { intros ->. apply HI. apply list_elem_of_here. }
  assert (HBA : forall k, k ∈ kB -> k <> kA).
  { intros k Hk ->. apply (HBrest kA Hk). rewrite elem_of_app. right.
    apply list_elem_of_here. }
  assert (HBI : forall k, k ∈ kB -> k <> kI).
  { intros k Hk ->. apply (HBrest kI Hk). rewrite elem_of_app. right.
    apply list_elem_of_further, list_elem_of_here. }
  set (oA := Resolved (VFeatureset (map (fun ts => lenient_row ts feats) tss))).
  assert (EA : exec wk rs3 {| t_key := kA; t_fn := assemble_featureset;
           t_args := [AFutures kF; AFutures kL]; t_kwargs := [] |} = oA).
  { unfold exec. cbn [t_fn t_args t_kwargs map resolve call].
    rewrite H3F, H3L, !gather_resolved, rows_of_features.
    rewrite !length_map, Nat.eqb_refl. done. }
  set (rs4 := <[kA := oA]> rs3).
  set (oI := Resolved (VFeatureset (map (impute_row (fill_value wk))
                 (map (fun ts => lenient_row ts feats) tss)))).
  assert (EI : exec wk rs4 {| t_key := kI; t_fn := impute_featureset;
           t_args := [AFuture kA]; t_kwargs := [("inplace", ABool false)] |} = oI).
  { unfold exec. cbn [t_fn t_args t_kwargs map resolve].
    unfold future_result, rs4. rewrite lookup_insert_eq. done. }
  set (rs5 := <[kI := oI]> rs4).
  assert (H5B : map (future_result rs5) kB
                = map Resolved (map VLabel (map ts_label tss))).
  { rewrite <- H3B. apply future_result_ext. intros k Hk. unfold rs5, rs4.
    rewrite lookup_insert_ne by (intros E; by apply (HBI k Hk)).
    rewrite lookup_insert_ne by (intros E; by apply (HBA k Hk)). done. }
  assert (ES : exec wk rs5 {| t_key := kS; t_fn := save_featureset;
           t_args := [AFuture kI; AStr path];
           t_kwargs := [("labels", AFutures kB)] |}
     = Resolved (VSaved path
        (map (impute_row (fill_value wk))
           (map (fun ts => lenient_row ts feats) tss))
        (map ts_label tss))).
  { unfold exec. cbn [t_fn t_args t_kwargs map resolve fst snd].
    rewrite H5B.
    unfold future_result at 1. unfold rs5 at 1. rewrite lookup_insert_eq.
    cbn. rewrite gather_resolved, labels_of_labels. done. }
  rewrite Hrs. unfold run_pool. cbn [fold_left t_key].
  rewrite EA. fold rs4. rewrite EI. fold rs5. rewrite ES.
  split; unfold future_result.
  - rewrite lookup_insert_ne by done. unfold rs5.
    rewrite lookup_insert_ne by done. unfold rs4.
    by rewrite lookup_insert_eq.
  - by rewrite lookup_insert_eq.
Qed.

End Pool.



Lemma lenient_row_missing ts feats f e :
  f ∈ feats -> ts_compute ts f = inl e -> (f, None) ∈ lenient_row ts feats.
Proof.
  intros Hf He. unfold lenient_row.
  apply list_elem_of_In, in_map_iff. exists f. rewrite He.
  split; [done | by apply list_elem_of_In].
Qed.

Lemma impute_row_fills fill row f :
  (f, None) ∈ row -> (f, Some fill) ∈ impute_row fill row.
Proof.
  intros Hin. unfold impute_row. apply list_elem_of_In, in_map_iff.
  exists (f, None). split; [done | by apply list_elem_of_In].
Qed.

Lemma impute_row_full fill row :
  Forall (fun cell => snd cell <> None) (impute_row fill row).
Proof.
  unfold impute_row. induction row as [|cell row IH]; simpl; constructor; done.
Qed.

Lemma pipeline_keys n0 files feats path :
  map t_key (pipeline rt n0 files feats path)
  = keys_from rt time_series_load n0 (length files)
    ++ keys_from rt ts_label_of (n0 + length files) (length files)
    ++ keys_from rt featurize_single_ts (n0 + length files + length files)
         (length files)
    ++ [pool_key rt assemble_featureset
          (n0 + length files + length files + length files);
        pool_key rt impute_featureset
          (S (n0 + length files + length files + length files));
        pool_key rt save_featureset
          (S (S (n0 + length files + length files + length files)))].
Proof.
  unfold pipeline. rewrite !map_app.
  rewrite !stage_keys by (by rewrite !length_map, ?length_keys_from).
  done.
Qed.

(** C6. [post] submits every featurize task with [raise_exceptions=False].
    When every file of the dataset loads, the pool that runs the submitted
    tasks resolves the assembling task to a feature set with one row for each
    of the N series, whatever features fail to compute on whatever series: a
    failed feature is a missing cell of its row. The future handed to the
    watcher resolves, it does not fail, and the set it saves is the imputed
    one, with no missing cell. The keys of the tasks are taken to be
    distinct. *)
Theorem C6_featurize_failures_become_missing_values self w v did c d wk tss :
  dict_lookup "datasetID" (request_json self) = Some v ->
  py_int rt v = Ok did ->
  select_features rt (request_json self) <> [] ->
  dict_lookup "customFeatsCode" (request_json self) = Some (JStr c) ->
  List.filter (fun d => Z.eqb (dataset_id d) did) (datasets w) = [d] ->
  is_owned_by d (current_user self) = true ->
  Forall2 (fun u ts => load_file wk u = inr ts) (dataset_files d) tss ->
  NoDup (map t_key (pipeline rt (pool_seq w) (dataset_files d)
                      (select_features rt (request_json self))
                      (artifact_path rt self w))) ->
  let feats := select_features rt (request_json self) in
  let rows := map (fun ts => lenient_row ts feats) tss in
  let imputed := map (impute_row (fill_value wk)) rows in
  exists w' future,
    post rt self w = (Ok tt, w')
    /\ E_spawn future (next_ref w) ∈ trace w'
    /\ let tasks := tasks_of (drop (length (trace w)) (trace w')) in
       let rs := run_pool wk tasks ∅ in
       (forall t, t ∈ tasks -> t_fn t = featurize_single_ts ->
          ("raise_exceptions", ABool false) ∈ t_kwargs t)
       /\ (exists t, t ∈ tasks /\ t_fn t = assemble_featureset
             /\ future_result rs (t_key t) = Resolved (VFeatureset rows))
       /\ length rows = length (dataset_files d)
       /\ (forall i ts f e,
             tss !! i = Some ts -> f ∈ feats -> ts_compute ts f = inl e ->
             exists row row',
               rows !! i = Some row /\ (f, None) ∈ row
               /\ imputed !! i = Some row' /\ (f, Some (fill_value wk)) ∈ row')
       /\ future_result rs future
            = Resolved (VSaved (artifact_path rt self w) imputed (map ts_label tss))
       /\ Forall (Forall (fun cell => snd cell <> None)) imputed.
Proof.
  intros Hid Hint Hsel Hc Hd Hown Hload Hnd feats rows imputed.
  destruct (submitted_trace self w d) as [id Htr].
  exists (submitted rt self w d), (terminal_key rt (pool_seq w) (dataset_files d)).
  split; [by eapply post_run|].
  split.
  { rewrite Htr. rewrite !elem_of_app. right. right. right.
    apply list_elem_of_further, list_elem_of_here. }
  cbv zeta.
  assert (Htasks : tasks_of (drop (length (trace w)) (trace (submitted rt self w d)))
                   = pipeline rt (pool_seq w) (dataset_files d) feats
                       (artifact_path rt self w)).
  { rewrite Htr, drop_app_length. cbn [app].
    change (E_add ?s ?r :: ?l) with ([E_add s r] ++ l).
    rewrite !tasks_of_app, tasks_of_tasks.
    change (tasks_of [E_add _ _]) with (@nil Task).
    change (tasks_of [E_commit _ _; _; _; _]) with (@nil Task).
    cbn [app]. by rewrite app_nil_r. }
  rewrite Htasks.
  rewrite pipeline_keys in Hnd.
  destruct (run_graph wk (dataset_files d) feats (artifact_path rt self w)
              _ _ _ _ _ _ tss
              (length_keys_from _ _ _) (length_keys_from _ _ _)
              (length_keys_from _ _ _) Hnd Hload) as [HA HS].
  split.
  { intros t Hin Hfn. rewrite (pipeline_featurize _ _ _ _ t Hin Hfn).
    unfold featurize_kwargs. do 2 apply list_elem_of_further. apply list_elem_of_here. }
  split.
  { set (n := length (dataset_files d)) in *.
    exists {| t_key := pool_key rt assemble_featureset (pool_seq w + n + n + n);
              t_fn := assemble_featureset;
              t_args := [AFutures (keys_from rt featurize_single_ts
                                     (pool_seq w + n + n) n);
                         AFutures (keys_from rt time_series_load (pool_seq w) n)];
              t_kwargs := [] |}.
    split; [|split; [done | exact HA]].
    unfold pipeline. rewrite !elem_of_app. do 3 right. apply list_elem_of_here. }
  split.
  { unfold rows. rewrite length_map. symmetry. exact (Forall2_length _ _ _ Hload). }
  split.
  { intros i ts f e Hi Hf He.
    exists (lenient_row ts feats), (impute_row (fill_value wk) (lenient_row ts feats)).
    unfold imputed, rows.
    change (map ?f ?l) with (f <$> l).
    rewrite !list_lookup_fmap, Hi. cbn.
    repeat split.
    - by eapply lenient_row_missing.
    - eapply impute_row_fills. by eapply lenient_row_missing. }
  split; [exact HS|].
  unfold imputed. apply Forall_forall. intros row Hin.
  apply list_elem_of_In, in_map_iff in Hin as (r & <- & _).
  apply impute_row_full.
Qed.

End Properties.

(** * Further properties of the handlers *)

Section Handlers.

#[local] Arguments set_heap h !w /.
#[local] Arguments set_next_ref n !w /.
#[local] Arguments set_table t !w /.
#[local] Arguments set_next_id n !w /.
#[local] Arguments set_pending p !w /.
#[local] Arguments set_entropy n !w /.
#[local] Arguments set_pool_seq n !w /.
#[local] Arguments set_trace t !w /.

Context (rt : Runtime).

Ltac run_handler :=
  unfold emit, bind, ret, raise, lift, gets, modify;
  cbn -[insert lookup_total lookup String.append table_delete table_update
        pjoin client_map client_submit keys_from stage for_each
        select_features dict_get flush flush_one];
  cbn [heap next_ref table next_id datasets active pending clock entropy
       pool_seq trace].


(** ** The ways out of [post] *)




Lemma post_no_custom_code self w v did :
  dict_lookup "datasetID" (request_json self) = Some v ->
  py_int rt v = Ok did ->
  select_features rt (request_json self) <> [] ->
  dict_lookup "customFeatsCode" (request_json self) = None ->
  post rt self w = (Raise (KeyError "customFeatsCode"), w).
Proof.
  intros Hid Hint Hsel Hc. unfold post, post_while, getitem. rewrite Hid, Hc.
  destruct (select_features rt (request_json self)) as [|f0 fs] eqn:Hfs; [done|].
  unfold bind at 1. unfold lift at 1. unfold bind at 1. unfold lift at 1. rewrite Hint.
  reflexivity.
Qed.

Lemma post_bad_custom_code self w v did c :
  dict_lookup "datasetID" (request_json self) = Some v ->
  py_int rt v = Ok did ->
  select_features rt (request_json self) <> [] ->
  dict_lookup "customFeatsCode" (request_json self) = Some c ->
  (forall s, c <> JStr s) ->
  post rt self w = (Raise AttributeError, w).
Proof.
  intros Hid Hint Hsel Hc Hs. unfold post, post_while, getitem. rewrite Hid, Hc.
  destruct (select_features rt (request_json self)) as [|f0 fs] eqn:Hfs; [done|].
  unfold bind at 1. unfold lift at 1. unfold bind at 1. unfold lift at 1. rewrite Hint.
  unfold bind at 1. unfold lift at 1. unfold bind at 1. unfold lift at 1.
  destruct c; try reflexivity. by destruct (Hs s).
Qed.

Lemma post_no_dataset self w v did c l :
  dict_lookup "datasetID" (request_json self) = Some v ->
  py_int rt v = Ok did ->
  select_features rt (request_json self) <> [] ->
  dict_lookup "customFeatsCode" (request_json self) = Some (JStr c) ->
  List.filter (fun d => Z.eqb (dataset_id d) did) (datasets w) = l ->
  length l <> 1 ->
  post rt self w
  = (Raise (if decide (l = []) then NoResultFound else MultipleResultsFound), w).
Proof.
  intros Hid Hint Hsel Hc Hd Hl. unfold post, post_while, getitem. rewrite Hid, Hc.
  destruct (select_features rt (request_json self)) as [|f0 fs] eqn:Hfs; [done|].
  unfold bind at 1. unfold lift at 1. unfold bind at 1. unfold lift at 1. rewrite Hint.
  unfold bind at 1. unfold lift at 1. unfold bind at 1. unfold lift at 1. simpl strip.
  unfold bind at 1. unfold Dataset_one at 1. rewrite Hd.
  destruct l as [|d [|d' l]]; try reflexivity. done.
Qed.



(** ** The store and the listing *)


Lemma table_update_fresh id f t :
  Forall (fun row => fst row < id) t -> table_update id f t = t.
Proof.
  unfold table_update. induction 1 as [|[i g] t Hi _ IH]; simpl; [done|].
  rewrite IH. simpl in Hi. destruct (Nat.eqb_spec i id); [lia | done].
Qed.

(** The world after a successful [post] in a session without earlier work,
    when the ids of the table are below the next one. *)
Lemma submitted_clean self w d :
  pending w = [] ->
  Forall (fun row => fst row < next_id w) (table w) ->
  let f := job_record rt self w d in
  let n := length (dataset_files d) in
  exists tr,
  submitted rt self w d =
    {| heap := <[next_ref w := {| o_session := Some (active w);
                                  o_id := Some (next_id w); o_val := f |}]> (heap w);
       next_ref := S (next_ref w);
       table := table w ++ [(next_id w, f)];
       next_id := S (next_id w);
       datasets := datasets w;
       active := active w;
       pending := [];
       clock := clock w;
       entropy := S (entropy w);
       pool_seq := S (S (S (pool_seq w + n + n + n)));
       trace := tr |}.
Proof.
  intros Hp Hfresh f n. unfold submitted. rewrite (flush_committing rt self w d Hp).
  destruct w as [hp nr tb ni ds ac pe cl en ps tr]. cbn in Hp. subst pe.
  cbn [table next_id] in Hfresh.
  unfold committing. run_handler.

  assert (Hupd : table_update ni (job_record rt self
             {| heap := hp; next_ref := nr; table := tb; next_id := ni;
                datasets := ds; active := ac; pending := []; clock := cl;
                entropy := en; pool_seq := ps; trace := tr |} d)
             (tb ++ [(ni, f)]) = tb ++ [(ni, f)]).
  { unfold table_update. rewrite map_app. cbn [map fst].
    rewrite Nat.eqb_refl. f_equal.
    by apply (table_update_fresh ni). }
  subst f. rewrite Hupd. eexists. reflexivity.
Qed.

Lemma get_run self w :
  get self w =
    (Ok tt,
     set_trace (trace w ++ [E_respond (RespSuccess
                              (DList (listing (current_user self) w)))]) w).
Proof. destruct w. reflexivity. Qed.

Lemma length_stage fn kw keys items :
  length keys = length items -> length (stage fn kw keys items) = length items.
Proof. intros H. unfold stage. rewrite length_zip_with. lia. Qed.

Lemma length_pipeline n0 files feats path :
  length (pipeline rt n0 files feats path) = 3 * length files + 3.
Proof.
  unfold pipeline. rewrite !length_app.
  rewrite !length_stage by (by rewrite !length_map, ?length_keys_from).
  rewrite !length_map, !length_keys_from. simpl. lia.
Qed.

Lemma new_tasks self w d :
  tasks_of (drop (length (trace w)) (trace (submitted rt self w d)))
  = pipeline rt (pool_seq w) (dataset_files d)
      (select_features rt (request_json self)) (artifact_path rt self w).
Proof.
  destruct (submitted_trace rt self w d) as [id Htr].
  rewrite Htr, drop_app_length. cbn [app].
  change (E_add ?s ?r :: ?l) with ([E_add s r] ++ l).
  rewrite !tasks_of_app, tasks_of_tasks.
  change (tasks_of [E_add _ _]) with (@nil Task).
  change (tasks_of [E_commit _ _; _; _; _]) with (@nil Task).
  cbn [app]. by rewrite app_nil_r.
Qed.

Lemma flush_one_pool p w : pool_seq (flush_one p w) = pool_seq w.
Proof.
  destruct p as [r|r|r]; unfold flush_one;
    destruct (o_id (heap w !!! r)); by destruct w.
Qed.

Lemma flush_pool s w : pool_seq (flush s w) = pool_seq w.
Proof.
  unfold flush.
  set (l := List.filter (of_session s) (pending w)).
  set (w' := fold_left _ _ _).
  replace (pool_seq (set_pending _ w')) with (pool_seq w') by (by destruct w').
  subst w'. generalize w. induction l as [|p l IH]; intros w0; simpl; [done|].
  by rewrite IH, flush_one_pool.
Qed.

(** [post] hands three tasks to the pool for each file of the dataset
    and three more, also for a dataset without files. *)
Theorem post_submits_three_tasks_per_file self w v did c d :
  dict_lookup "datasetID" (request_json self) = Some v ->
  py_int rt v = Ok did ->
  select_features rt (request_json self) <> [] ->
  dict_lookup "customFeatsCode" (request_json self) = Some (JStr c) ->
  List.filter (fun d => Z.eqb (dataset_id d) did) (datasets w) = [d] ->
  is_owned_by d (current_user self) = true ->
  exists w',
    post rt self w = (Ok tt, w')
    /\ length (tasks_of (drop (length (trace w)) (trace w')))
       = 3 * length (dataset_files d) + 3
    /\ pool_seq w' = pool_seq w + 3 * length (dataset_files d) + 3.
Proof.
  intros Hid Hint Hsel Hc Hd Hown.
  exists (submitted rt self w d). split; [by eapply post_run|].
  rewrite new_tasks, length_pipeline. split; [done|].
  unfold submitted.
  match goal with |- pool_seq (set_trace ?t ?w0) = _ =>
    replace (pool_seq (set_trace t w0)) with (pool_seq w0) by (by destruct w0) end.
  rewrite flush_pool. unfold committing. cbn [pool_seq]. lia.
Qed.

(** [post] adds one row to the table and leaves the others as they are. *)
Theorem post_appends_one_row self w v did c d :
  dict_lookup "datasetID" (request_json self) = Some v ->
  py_int rt v = Ok did ->
  select_features rt (request_json self) <> [] ->
  dict_lookup "customFeatsCode" (request_json self) = Some (JStr c) ->
  List.filter (fun d => Z.eqb (dataset_id d) did) (datasets w) = [d] ->
  is_owned_by d (current_user self) = true ->
  pending w = [] ->
  Forall (fun row => fst row < next_id w) (table w) ->
  exists w' f,
    post rt self w = (Ok tt, w')
    /\ table w' = table w ++ [(next_id w, f)]
    /\ name f = dict_get (request_json self) "featuresetName" (JStr "")
    /\ project f = dataset_project d
    /\ custom_features_script f = None
    /\ pending w' = []
    /\ Forall (fun row => fst row < next_id w') (table w')
    /\ datasets w' = datasets w.
Proof.
  intros Hid Hint Hsel Hc Hd Hown Hp Hfresh.
  exists (submitted rt self w d), (job_record rt self w d).
  split; [by eapply post_run|].
  destruct (submitted_clean self w d Hp Hfresh) as [tr ->].
  cbn [table pending next_id datasets].
  repeat split; try done.
  apply Forall_app. split.
  - eapply Forall_impl; [exact Hfresh|]. intros row Hrow. simpl in *. lia.
  - constructor; [simpl; lia | constructor].
Qed.

(** The listing of [get] holds the rows of the projects of the requester,
    no others, and [get] changes nothing. *)
Theorem get_lists_rows_of_own_projects self w :
  exists l,
    get self w = (Ok tt, set_trace (trace w ++ [E_respond (RespSuccess (DList l))]) w)
    /\ forall row,
         row ∈ l <-> row ∈ table w /\ project (snd row) ∈ projects (current_user self).
Proof.
  exists (listing (current_user self) w). split; [apply get_run|].
  intros row. apply elem_of_listing.
Qed.

(** After [post], the record is in the listing of the requester, and
    in the listing of no user without the project of the dataset. *)
Theorem post_then_get self w v did c d :
  dict_lookup "datasetID" (request_json self) = Some v ->
  py_int rt v = Ok did ->
  select_features rt (request_json self) <> [] ->
  dict_lookup "customFeatsCode" (request_json self) = Some (JStr c) ->
  List.filter (fun d => Z.eqb (dataset_id d) did) (datasets w) = [d] ->
  is_owned_by d (current_user self) = true ->
  pending w = [] ->
  Forall (fun row => fst row < next_id w) (table w) ->
  exists w1 f,
    post rt self w = (Ok tt, w1)
    /\ task_id f <> None /\ finished f = None
    /\ (forall other, current_user other = current_user self ->
        exists l w2,
          get other w1 = (Ok tt, w2)
          /\ last (trace w2) = Some (E_respond (RespSuccess (DList l)))
          /\ (next_id w, f) ∈ l)
    /\ (forall other, dataset_project d ∉ projects (current_user other) ->
        exists l w2,
          get other w1 = (Ok tt, w2)
          /\ last (trace w2) = Some (E_respond (RespSuccess (DList l)))
          /\ next_id w ∉ map fst l).
Proof.
  intros Hid Hint Hsel Hc Hd Hown Hp Hfresh.
  exists (submitted rt self w d), (job_record rt self w d).
  split; [by eapply post_run|].
  split; [done|]. split; [done|].
  destruct (submitted_clean self w d Hp Hfresh) as [tr Hw1].
  split.
  - intros other Hu. eexists _, _. split; [apply get_run|].
    rewrite trace_set_trace, last_snoc. split; [done|].
    apply elem_of_listing. rewrite Hw1. cbn [table snd].
    split.
    + apply elem_of_app. right. apply list_elem_of_here.
    + rewrite Hu. unfold is_owned_by in Hown.
      by apply bool_decide_eq_true in Hown.
  - intros other Hno. eexists _, _. split; [apply get_run|].
    rewrite trace_set_trace, last_snoc. split; [done|].
    intros Hin. apply list_elem_of_fmap in Hin as [[i g] [Hi Hrow]].
    simpl in Hi. subst i.
    apply elem_of_listing in Hrow as [Hrow Hproj].
    rewrite Hw1 in Hrow. cbn [table] in Hrow.
    apply elem_of_app in Hrow as [Hrow|Hrow].
    + rewrite Forall_forall in Hfresh. apply Hfresh in Hrow. simpl in Hrow. lia.
    + apply list_elem_of_singleton in Hrow. inversion Hrow; subst g.
      simpl in Hproj. done.
Qed.


(** ** The watcher *)

Lemma pool_set_trace t w : pool_seq (set_trace t w) = pool_seq w.
Proof. by destruct w. Qed.


Lemma quietly_bind {A B} (m : M A) (k : A -> M B) :
  quietly m -> (forall a, quietly (k a)) -> quietly (bind m k).
Proof.
  intros Hm Hk w. destruct (Hm w) as (res1 & w1 & mid1 & Hrun1 & Htr1 & Hq1 & Hp1).
  unfold bind. rewrite Hrun1. destruct res1 as [a|e].
  - destruct (Hk a w1) as (res2 & w2 & mid2 & Hrun2 & Htr2 & Hq2 & Hp2).
    exists res2, w2, (mid1 ++ mid2). rewrite Hrun2.
    split; [done|]. split; [by rewrite Htr2, Htr1, app_assoc|].
    split; [|congruence].
    rewrite forallb_app, Hq1, Hq2. done.
  - by exists (Raise e), w1, mid1.
Qed.

Lemma quietly_ret {A} (a : A) : quietly (ret a).
Proof. intros w. exists (Ok a), w, []. by rewrite app_nil_r. Qed.

Lemma quietly_raise {A} (e : exn) : quietly (@raise A e).
Proof. intros w. exists (Raise e), w, []. by rewrite app_nil_r. Qed.

Lemma quietly_gets {A} (f : World -> A) : quietly (gets f).
Proof. intros w. exists (Ok (f w)), w, []. by rewrite app_nil_r. Qed.

Lemma quietly_modify f :
  (forall w, trace (f w) = trace w /\ pool_seq (f w) = pool_seq w) ->
  quietly (modify f).
Proof.
  intros Hf w. destruct (Hf w) as [Ht Hp].
  exists (Ok tt), (f w), []. by rewrite app_nil_r.
Qed.

Lemma quietly_emit e : quiet e = true -> quietly (emit e).
Proof.
  intros He w. exists (Ok tt), (set_trace (trace w ++ [e]) w), [e].
  split; [done|]. rewrite trace_set_trace, pool_set_trace. simpl. by rewrite He.
Qed.

Lemma quietly_setattr r f : quietly (setattr r f).
Proof.
  apply quietly_modify. intros w. destruct w as [hp nr tb ni ds ac pe cl en ps tr].
  cbn [heap pending]. by destruct (o_session (hp !!! r)).
Qed.

Lemma quietly_commit s : quietly (Session_commit s).
Proof.
  apply quietly_bind.
  - apply quietly_modify. intros w. by rewrite flush_trace, flush_pool.
  - intros _. apply quietly_bind; [apply quietly_gets|].
    intros t. by apply quietly_emit.
Qed.

Lemma quietly_merge s r : quietly (Session_merge s r).
Proof.
  apply quietly_bind; [apply quietly_gets|]. intros o.
  case_bool_decide.
  - apply quietly_bind; [by apply quietly_emit | intros _; apply quietly_ret].
  - apply quietly_bind; [apply quietly_gets|]. intros r'.
    apply quietly_bind; [apply quietly_modify; intros w; by destruct w|]. intros _.
    apply quietly_bind; [by apply quietly_emit | intros _; apply quietly_ret].
Qed.

Lemma quietly_delete s r : quietly (Session_delete s r).
Proof.
  apply quietly_bind; [by apply quietly_emit|]. intros _.
  apply quietly_bind; [apply quietly_gets|]. intros o.
  destruct (deletable s o).
  - apply quietly_modify. intros w. by destruct w.
  - apply quietly_raise.
Qed.

(** The watcher answers no request and hands nothing to the pool or to the
    event loop, whatever the outcome of the future and whatever the state
    of the store: the docstring of the coroutine says that there is no open
    request any more. When it returns, the refresh action is the last
    thing it has emitted. *)
Theorem watcher_never_responds self future fset w :
  exists res w' mid,
    _await_featurization rt self future fset w = (res, w')
    /\ trace w' = trace w ++ mid
    /\ forallb quiet mid = true
    /\ pool_seq w' = pool_seq w
    /\ (res = Ok tt ->
        last mid
        = Some (E_action (username (current_user self)) "cesium/FETCH_FEATURESETS" [])).
Proof.
  assert (Hbody : quietly (
    match future with
    | Resolved result =>
        s <- DBSession ;;
        fset <- Session_merge s fset ;;
        setattr fset (with_task_id None) ;;
        now <- datetime_now ;;
        setattr fset (with_finished (Some now)) ;;
        s <- DBSession ;;
        Session_commit s ;;
        n <- getattr fset name ;;
        action self "baselayer/SHOW_NOTIFICATION"
          [("note", "Calculation of featureset '" +:+ py_str rt n +:+ "' completed.")]
    | Failed e =>
        s <- DBSession ;;
        Session_delete s fset ;;
        s <- DBSession ;;
        Session_commit s ;;
        n <- getattr fset name ;;
        action self "baselayer/SHOW_NOTIFICATION"
          [("note", "Cannot featurize " +:+ py_str rt n +:+ ": " +:+ failure_str e);
           ("type", "error")] ;;
        emit (E_print e)
    end)).
  { destruct future as [v|e];
      repeat (first
        [ apply quietly_merge | apply quietly_setattr
        | apply quietly_commit | apply quietly_delete
        | apply quietly_gets | by apply quietly_emit
        | apply quietly_bind; [|intros ?] ]). }
  destruct (Hbody w) as (res & w1 & mid & Hrun & Htr & Hq & Hp).
  unfold _await_featurization. unfold bind at 1. rewrite Hrun.
  destruct res as [[]|e].
  - exists (Ok tt),
      (set_trace (trace w1 ++
         [E_action (username (current_user self)) "cesium/FETCH_FEATURESETS" []]) w1),
      (mid ++ [E_action (username (current_user self)) "cesium/FETCH_FEATURESETS" []]).
    split; [reflexivity|].
    rewrite trace_set_trace, pool_set_trace, Htr, Hp, <- app_assoc.
    split; [done|]. split; [by rewrite forallb_app, Hq|].
    split; [done|]. intros _. apply last_snoc.
  - exists (Raise e), w1, mid. repeat split; try done.
Qed.



Lemma table_update_ids k f t : map fst (table_update k f t) = map fst t.
Proof.
  unfold table_update. rewrite map_map. apply map_ext. intros [i g]. simpl.
  by destruct (Nat.eqb_spec i k).
Qed.


(** On success the watcher writes to the object it was given when the
    object is attached to the session of its scope, and to a copy
    otherwise: the object it was given then keeps its attributes. *)
Theorem watcher_merges_a_copy self result fset w o k :
  heap w !! fset = Some o ->
  o_id o = Some k ->
  pending w = [] ->
  fset <> next_ref w ->
  let o' := {| o_session := Some (active w); o_id := Some k;
               o_val := with_finished (Some (clock w))
                          (with_task_id None (o_val o)) |} in
  exists w',
    _await_featurization rt self (Resolved result) fset w = (Ok tt, w')
    /\ (o_session o = Some (active w) ->
        heap w' !! fset = Some o' /\ next_ref w' = next_ref w)
    /\ (o_session o <> Some (active w) ->
        heap w' !! fset = Some o
        /\ heap w' !! next_ref w = Some o'
        /\ next_ref w' = S (next_ref w)).
Proof.
  intros Hh Hk Hp Hne o'.
  eexists. split; [by apply (watch_ok rt self result fset w o k)|].
  destruct w as [hp nr tb ni ds ac pe cl en ps tr]; cbn in Hp, Hne; subst pe.
  cbn [set_trace set_table set_next_ref set_heap table next_id datasets pending
       heap next_ref active clock entropy pool_seq trace] in *.
  split; intros Hs.
  - rewrite bool_decide_eq_true_2 by done. by rewrite lookup_insert_eq.
  - rewrite bool_decide_eq_false_2 by done.
    rewrite lookup_insert_ne by done. by rewrite lookup_insert_eq.
Qed.

(** The selected features come in the order of the request. *)
Theorem select_features_in_request_order (data : list (string * json)) :
  select_features rt data `sublist_of` map fst data.
Proof.
  unfold select_features. induction data as [|[k v] data IH]; simpl; [done|].
  destruct (bool_decide (k ∈ dask_feature_graph rt) && truthy v); simpl.
  - by apply sublist_skip.
  - by apply sublist_cons.
Qed.

(** [post] answers with a record exactly when the request is complete
    and the dataset is one, of the requester. *)
Theorem post_succeeds_iff self w :
  (exists w' id f,
     post rt self w = (Ok tt, w')
     /\ E_respond (RespSuccess (DFeatureset id f))
          ∈ drop (length (trace w)) (trace w'))
  <->
  (exists v did c d,
     dict_lookup "datasetID" (request_json self) = Some v
     /\ py_int rt v = Ok did
     /\ select_features rt (request_json self) <> []
     /\ dict_lookup "customFeatsCode" (request_json self) = Some (JStr c)
     /\ List.filter (fun d => Z.eqb (dataset_id d) did) (datasets w) = [d]
     /\ is_owned_by d (current_user self) = true).
Proof.
  split.
  - intros (w' & id & f & H & Hin).
    destruct (dict_lookup "datasetID" (request_json self)) as [v|] eqn:Hid.
    2:{ unfold post, post_while, getitem in H. rewrite Hid in H. discriminate. }
    destruct (py_int rt v) as [did|e0] eqn:Hint.
    2:{ unfold post, post_while, getitem in H. rewrite Hid in H.
        unfold bind at 1 in H. unfold lift at 1 in H.
        unfold bind at 1 in H. unfold lift at 1 in H. rewrite Hint in H.
        discriminate. }
    destruct (select_features rt (request_json self)) as [|f0 fs] eqn:Hfs.
    { rewrite (post_invalid rt self w v did) in H by done.
      inversion H; subst w'. rewrite trace_set_trace, drop_app_length in Hin.
      apply list_elem_of_singleton in Hin. discriminate. }
    assert (Hsel : select_features rt (request_json self) <> []) by (by rewrite Hfs).
    destruct (dict_lookup "customFeatsCode" (request_json self)) as [c|] eqn:Hc.
    2:{ unfold post, post_while, getitem in H. rewrite Hid, Hc, Hfs in H.
        unfold bind at 1 in H. unfold lift at 1 in H.
        unfold bind at 1 in H. unfold lift at 1 in H. rewrite Hint in H.
        discriminate. }
    destruct (List.filter (fun d => Z.eqb (dataset_id d) did) (datasets w))
      as [|d [|d' l]] eqn:Hd.
    1,3: (unfold post, post_while, getitem in H; rewrite Hid, Hc, Hfs in H;
        unfold bind at 1 in H; unfold lift at 1 in H;
        unfold bind at 1 in H; unfold lift at 1 in H; rewrite Hint in H;
        unfold bind at 1 in H; unfold lift at 1 in H;
        unfold bind at 1 in H; unfold lift at 1 in H;
        destruct c; try discriminate; simpl strip in H;
        unfold bind at 1 in H; unfold Dataset_one at 1 in H; rewrite Hd in H;
        discriminate).
    destruct c as [| | |s| |];
      try (unfold post, post_while, getitem in H; rewrite Hid, Hc, Hfs in H;
        unfold bind at 1 in H; unfold lift at 1 in H;
        unfold bind at 1 in H; unfold lift at 1 in H; rewrite Hint in H;
        discriminate).
    destruct (is_owned_by d (current_user self)) eqn:Hown.
    + by exists v, did, s, d.
    + rewrite (post_denied rt self w v did s d) in H by done. discriminate.
  - intros (v & did & c & d & Hid & Hint & Hsel & Hc & Hd & Hown).
    destruct (submitted_trace rt self w d) as [id Htr].
    exists (submitted rt self w d), id, (job_record rt self w d).
    split; [by eapply post_run|].
    rewrite Htr, drop_app_length. rewrite !elem_of_app. right. right.
    do 3 apply list_elem_of_further. apply list_elem_of_here.
Qed.


(** ** The order of the checks of [post] *)


(** The code of the custom features has to come with the request, as a
    string, once a feature is selected: [post] raises before it looks for
    the dataset. *)
Theorem post_needs_custom_code self w v did :
  dict_lookup "datasetID" (request_json self) = Some v ->
  py_int rt v = Ok did ->
  select_features rt (request_json self) <> [] ->
  (forall c, dict_lookup "customFeatsCode" (request_json self) <> Some (JStr c)) ->
  exists e,
    post rt self w = (Raise e, w)
    /\ (e = KeyError "customFeatsCode" \/ e = AttributeError).
Proof.
  intros Hid Hint Hsel Hc.
  destruct (dict_lookup "customFeatsCode" (request_json self)) as [c|] eqn:Hcode.
  - exists AttributeError. split; [|auto].
    apply (post_bad_custom_code self w v did c); try done.
    intros s ->. by apply (Hc s).
  - exists (KeyError "customFeatsCode"). split; [|auto].
    by apply (post_no_custom_code self w v did).
Qed.

(** A complete request for a dataset that does not exist raises
    [NoResultFound], and nothing has been created or submitted. *)
Theorem post_unknown_dataset self w v did c :
  dict_lookup "datasetID" (request_json self) = Some v ->
  py_int rt v = Ok did ->
  select_features rt (request_json self) <> [] ->
  dict_lookup "customFeatsCode" (request_json self) = Some (JStr c) ->
  Forall (fun d => dataset_id d <> did) (datasets w) ->
  post rt self w = (Raise NoResultFound, w).
Proof.
  intros Hid Hint Hsel Hc Hnone.
  assert (Hd : List.filter (fun d => Z.eqb (dataset_id d) did) (datasets w) = []).
  { induction Hnone as [|d ds Hd _ IH]; simpl; [done|].
    destruct (Z.eqb_spec (dataset_id d) did); [done | exact IH]. }
  by rewrite (post_no_dataset self w v did c [] Hid Hint Hsel Hc Hd).
Qed.

(** ** Runs of several steps *)

(** The same request twice makes two records: [post] does not recognise a
    submission it has seen. *)
Theorem post_twice_makes_two_records self w v did c d :
  dict_lookup "datasetID" (request_json self) = Some v ->
  py_int rt v = Ok did ->
  select_features rt (request_json self) <> [] ->
  dict_lookup "customFeatsCode" (request_json self) = Some (JStr c) ->
  List.filter (fun d => Z.eqb (dataset_id d) did) (datasets w) = [d] ->
  is_owned_by d (current_user self) = true ->
  pending w = [] ->
  Forall (fun row => fst row < next_id w) (table w) ->
  exists w1 w2 f1 f2,
    post rt self w = (Ok tt, w1)
    /\ post rt self w1 = (Ok tt, w2)
    /\ table w2 = table w ++ [(next_id w, f1); (S (next_id w), f2)]
    /\ name f1 = name f2
    /\ features_list f1 = features_list f2
    /\ file_uri f1 = pjoin (features_folder self)
                       (uuid4 rt (entropy w) +:+ "_featureset.npz")
    /\ file_uri f2 = pjoin (features_folder self)
                       (uuid4 rt (S (entropy w)) +:+ "_featureset.npz")
    /\ pool_seq w2 = pool_seq w + 2 * (3 * length (dataset_files d) + 3).
Proof.
  intros Hid Hint Hsel Hc Hd Hown Hp Hfresh.
  destruct (submitted_clean self w d Hp Hfresh) as [tr1 Hw1].
  set (w1 := submitted rt self w d) in *.
  assert (Hp1 : pending w1 = []) by (by rewrite Hw1).
  assert (Hfresh1 : Forall (fun row => fst row < next_id w1) (table w1)).
  { rewrite Hw1. cbn [table next_id]. apply Forall_app. split.
    - eapply Forall_impl; [exact Hfresh|]. intros row Hrow. simpl in *. lia.
    - constructor; [simpl; lia | constructor]. }
  assert (Hd1 : List.filter (fun d => Z.eqb (dataset_id d) did) (datasets w1) = [d])
    by (by rewrite Hw1).
  destruct (submitted_clean self w1 d Hp1 Hfresh1) as [tr2 Hw2].
  exists w1, (submitted rt self w1 d), (job_record rt self w d),
    (job_record rt self w1 d).
  split; [by eapply post_run|].
  split; [by eapply post_run|].
  rewrite Hw2. cbn [table pool_seq]. rewrite Hw1. cbn [table next_id pool_seq].
  rewrite <- app_assoc. cbn [app].
  repeat split; try done. lia.
Qed.

(** From the submission to the listing: once the watcher has seen the
    future resolve, in whatever session and at whatever time, [get] shows
    the requester the record, without a task and finished at that time. *)
Theorem completed_record_is_listed self w v did c d s now result :
  dict_lookup "datasetID" (request_json self) = Some v ->
  py_int rt v = Ok did ->
  select_features rt (request_json self) <> [] ->
  dict_lookup "customFeatsCode" (request_json self) = Some (JStr c) ->
  List.filter (fun d => Z.eqb (dataset_id d) did) (datasets w) = [d] ->
  is_owned_by d (current_user self) = true ->
  pending w = [] ->
  Forall (fun row => fst row < next_id w) (table w) ->
  exists w1 w2 w3 l f,
    post rt self w = (Ok tt, w1)
    /\ _await_featurization rt self (Resolved result) (next_ref w) (resumed s now w1)
       = (Ok tt, w2)
    /\ get self w2 = (Ok tt, w3)
    /\ last (trace w3) = Some (E_respond (RespSuccess (DList l)))
    /\ (next_id w, f) ∈ l
    /\ task_id f = None
    /\ finished f = Some now
    /\ name f = dict_get (request_json self) "featuresetName" (JStr "")
    /\ features_list f = select_features rt (request_json self).
Proof.
  intros Hid Hint Hsel Hc Hd Hown Hp Hfresh.
  destruct (submitted_clean self w d Hp Hfresh) as [tr1 Hw1].
  exists (submitted rt self w d). eexists _, _, _, _.
  split; [by eapply post_run|].
  split.
  { eapply (watch_ok rt self result (next_ref w) (resumed s now (submitted rt self w d))
              _ (next_id w)).
    - rewrite Hw1. cbn [resumed heap]. apply lookup_insert_eq.
    - done.
    - by rewrite Hw1. }
  split; [apply get_run|].
  rewrite trace_set_trace, last_snoc. split; [done|].
  rewrite Hw1.
  cbn [resumed heap next_ref table next_id datasets active pending clock entropy
       pool_seq trace o_val o_session
       set_trace set_table set_next_ref set_heap].
  split.
  { apply elem_of_listing.
    cbn [table set_trace set_table set_next_ref set_heap snd].
    split.
    - eapply elem_of_table_update. apply elem_of_app. right. apply list_elem_of_here.
    - unfold is_owned_by in Hown. by apply bool_decide_eq_true in Hown. }
  done.
Qed.


End Handlers.

(** ** The scenario, run *)

Module Runs.

Import Scenario.

(** The world of the scenario after [post]. *)
Example post_run_scenario :
  exists w', post rt submit w0 = (Ok tt, w')
             /\ table w' = [(1, record)]
             /\ heap w' !! 0 = Some {| o_session := Some 0; o_id := Some 1; o_val := record |}.
Proof. eexists. split; [vm_compute; reflexivity|]. by vm_compute. Qed.

Lemma C1_witness :
  exists w', _await_featurization rt submit (Resolved (VLabel "")) 0 w1 = (Ok tt, w')
    /\ table w' = [(1, with_finished (Some 200%Z) (with_task_id None record))]
    /\ actions_of (trace w') =
         [("baselayer/SHOW_NOTIFICATION",
           [("note", "Calculation of featureset 'X' completed.")]);
          ("cesium/FETCH_FEATURESETS", [])].
Proof.
  destruct (C1_success_reconciles_then_notifies rt submit (VLabel "") 0 w1
              {| o_session := Some 0; o_id := Some 1; o_val := record |} 1)
    as (w' & fset' & f' & Hrun & _); try reflexivity.
  - by eexists.
  - exists w'. split; [exact Hrun|].
    vm_compute in Hrun. injection Hrun as <-. by vm_compute.
Defined.


(** The failing input of C9: the record was attached to session 0, the
    watcher runs in the scope of session 1, and the future has failed. The
    delete of session 1 is given object 0, which stays attached to session 0;
    nothing is merged, and the delete raises. *)
Lemma C9_witness :
  active w1 = 1
  /\ exists w',
       _await_featurization rt submit (Failed boom) 0 w1
         = (Raise InvalidRequestError, w')
       /\ trace w' = [E_delete 1 0]
       /\ o_session <$> heap w' !! 0 = Some (Some 0)
       /\ table w' = [(1, record)].
Proof.
  split; [reflexivity|].
  destruct (C9_failure_path_deletes_unmerged rt submit boom 0 w1
              {| o_session := Some 0; o_id := Some 1; o_val := record |} 1)
    as (res & w' & Hrun & _ & _ & _ & Hraise); try reflexivity.
  destruct (Hraise 0 eq_refl) as [-> Htbl]; [cbn; lia|].
  exists w'. split; [exact Hrun|].
  vm_compute in Hrun. injection Hrun as <-. by vm_compute.
Defined.

Lemma pool_key_nonempty fn n : pool_key rt fn n <> "".
Proof. by destruct fn. Qed.

Lemma C3_witness :
  exists w', post rt submit w0 = (Ok tt, w')
    /\ table_lookup 1 (table w') = Some record
    /\ task_id record = Some "save_featureset-11"
    /\ finished record = None.
Proof.
  destruct (C3_post_commits_pending_record_then_succeeds rt submit w0
              (JInt 7) 7%Z "" dataset)
    as (w' & f & key & t & before & Hrun & _); try reflexivity.
  - by vm_compute.
  - apply pool_key_nonempty.
  - exists w'. split; [exact Hrun|].
    vm_compute in Hrun. injection Hrun as <-. by vm_compute.
Defined.

Lemma C4_witness :
  select_features rt (request "") = ["amplitude"; "period"]
  /\ exists w', post rt (handler owner empty_request) w0 = (Ok tt, w')
      /\ trace w' = [E_respond (RespError "At least one feature must be selected.")]
      /\ table w' = [].
Proof.
  split; [by vm_compute|].
  destruct (C4_features_are_filtered_and_required rt (handler owner empty_request) w0
              (JInt 7) 7%Z) as (_ & Hempty & _); try reflexivity.
  destruct Hempty as (w' & Hrun & Htr & _ & Htbl & _); [by vm_compute|].
  exists w'. by repeat split.
Defined.

(** C5, as the claim has it: the assemble task of the scenario does not
    wait for any label task. *)
Lemma C5_assemble_does_not_wait_for_labels :
  fst (post rt submit w0) = Ok tt
  /\ assemble_waits_for_labels (tasks_of (trace (snd (post rt submit w0)))) = false.
Proof. by vm_compute. Qed.

Lemma C5_witness :
  exists w', post rt submit w0 = (Ok tt, w')
    /\ tasks_of (trace w') =
         pipeline rt 0 ["s1.nc"; "s2.nc"; "s3.nc"] ["amplitude"; "period"]
           "/data/features/uuid0_featureset.npz".
Proof.
  destruct (C5_post_submits_the_pipeline rt submit w0 (JInt 7) 7%Z "" dataset)
    as (w' & id & f & tbl & future & saving & Hrun & _ & Htasks & _);
    try reflexivity; [by vm_compute|].
  exists w'. split; [exact Hrun|]. exact Htasks.
Defined.

(** C7, as the claim has it: the dataset is not the requester's, and yet
    [post] does not raise: no feature is selected, and the response is the
    validation error. *)
Lemma C7_empty_selection_is_not_denied :
  List.filter (fun d => Z.eqb (dataset_id d) 7) (datasets w0) = [dataset]
  /\ is_owned_by dataset stranger = false
  /\ post rt (handler stranger empty_request) w0 =
       (Ok tt,
        set_trace [E_respond (RespError "At least one feature must be selected.")] w0)
  /\ ~ (exists msg, fst (post rt (handler stranger empty_request) w0)
                    = Raise (AccessError msg)).
Proof.
  repeat split; try by vm_compute.
  intros [msg H]. vm_compute in H. discriminate.
Qed.

Lemma C7_witness :
  post rt (handler stranger (request "")) w0 = (Raise (AccessError "No such data set"), w0).
Proof.
  apply (C7_foreign_dataset_is_denied_after_validation rt
           (handler stranger (request "")) w0 (JInt 7) 7%Z "" dataset);
    try reflexivity.
  by vm_compute.
Defined.

(** The failing inputs of C8: the watcher of the scenario, resumed in
    session 1 with a failed future, and the submission of the scenario with
    a commit during its await. *)
Lemma C8_witness :
  (exists w1' w2 f,
     post rt submit w0 = (Ok tt, w1')
     /\ _await_featurization rt submit (Failed boom) 0 (resumed 1 200 w1')
        = (Raise InvalidRequestError, w2)
     /\ table_lookup 1 (table w2) = Some f
     /\ is_Some (task_id f))
  /\ (exists w1' t0 t1 f0,
        post_while rt committer submit w0 = (Ok tt, w1')
        /\ commits_of (trace w1') = [t0; t1]
        /\ table_lookup 1 t0 = Some f0
        /\ task_id f0 = None
        /\ finished f0 = None).
Proof.
  destruct (C8_invariant_is_broken rt submit w0 (JInt 7) 7%Z "" dataset)
    as [(w1' & Hrun & Hwatch) (w1b & t0 & t1 & f0 & Hrunb & Hc & Hl & Ht & Hf & _)];
    try reflexivity; [by vm_compute|].
  split.
  - destruct (Hwatch 1 200%Z boom) as (w2 & f & Hrun2 & _ & Hrow & Htask & _);
      [cbn; lia|].
    exists w1', w2, f. split; [exact Hrun|]. split; [exact Hrun2|].
    split; [exact Hrow | exact Htask].
  - exists w1b, t0, t1, f0. split; [exact Hrunb|]. split; [exact Hc|].
    split; [exact Hl|]. split; [exact Ht | exact Hf].
Defined.

Lemma C10_witness :
  ("customFeatsCode" ∉ dask_feature_graph rt)
  /\ post rt (handler owner (request "")) w0
     = post rt (handler owner (request "import os")) w0.
Proof.
  assert (Hcat : "customFeatsCode" ∉ dask_feature_graph rt).
  { rewrite list_elem_of_In. simpl. intuition discriminate. }
  assert (Hsame : same_but_custom (request "") (request "import os")).
  { unfold same_but_custom, request.
    repeat (constructor; [split; [exact eq_refl | cbn; eauto] | ]).
    constructor. }
  split; [exact Hcat|].
  exact (proj1 (C10_custom_code_has_no_effect rt (handler owner (request ""))
                  (handler owner (request "import os")) w0
                  eq_refl eq_refl Hsame Hcat)).
Defined.

(** The scenario: the period of the second series cannot be computed, and
    the watcher's future resolves to three rows, the missing period filled. *)
Lemma C6_witness :
  exists w' future rs,
    post rt submit w0 = (Ok tt, w')
    /\ rs = run_pool workers (tasks_of (trace w')) ∅
    /\ future_result rs future
       = Resolved (VSaved "/data/features/uuid0_featureset.npz"
           [[("amplitude", Some 3%Z); ("period", Some 10%Z)];
            [("amplitude", Some 5%Z); ("period", Some 0%Z)];
            [("amplitude", Some 4%Z); ("period", Some 12%Z)]]
           ["a"; "b"; "a"]).
Proof.
  destruct (C6_featurize_failures_become_missing_values rt submit w0 (JInt 7) 7%Z ""
              dataset workers
              [series "a" 3 (inr 10%Z);
               series "b" 5 (inl (Failure "ZeroDivisionError" "division by zero"));
               series "a" 4 (inr 12%Z)])
    as (w' & future & Hrun & _ & _ & _ & _ & _ & Hsave & _);
    try reflexivity.
  - by vm_compute.
  - repeat constructor.
  - apply (bool_decide_unpack _). vm_compute. reflexivity.
  - exists w', future, (run_pool workers (tasks_of (trace w')) ∅).
    split; [exact Hrun|]. split; [reflexivity|]. exact Hsave.
Defined.

(** ** Further runs *)



Lemma post_needs_custom_code_witness :
  exists e,
    post rt (handler stranger [("datasetID", JInt 8); ("amplitude", JBool true)]) w0
      = (Raise e, w0)
    /\ (e = KeyError "customFeatsCode" \/ e = AttributeError).
Proof.
  apply (post_needs_custom_code rt
           (handler stranger [("datasetID", JInt 8); ("amplitude", JBool true)]) w0
           (JInt 8) 8%Z); try reflexivity.
  - by vm_compute.
  - intros c. by vm_compute.
Defined.

Lemma post_unknown_dataset_witness :
  post rt (handler owner [("datasetID", JInt 8); ("amplitude", JBool true);
                          ("customFeatsCode", JStr "")]) w0
  = (Raise NoResultFound, w0).
Proof.
  apply (post_unknown_dataset rt _ w0 (JInt 8) 8%Z ""); try reflexivity.
  - by vm_compute.
  - constructor; [by vm_compute | constructor].
Defined.

(** The submission of the scenario, counted. *)
Lemma post_submits_three_tasks_per_file_witness :
  exists w', post rt submit w0 = (Ok tt, w')
    /\ length (tasks_of (trace w')) = 12
    /\ pool_seq w' = 12.
Proof.
  destruct (post_submits_three_tasks_per_file rt submit w0 (JInt 7) 7%Z "" dataset)
    as (w' & Hrun & Hlen & Hpool); try reflexivity; [by vm_compute|].
  exists w'. split; [exact Hrun|]. split; [exact Hlen | exact Hpool].
Defined.

Lemma post_appends_one_row_witness :
  exists w' f, post rt submit w0 = (Ok tt, w')
    /\ table w' = [(1, f)]
    /\ name f = JStr "X".
Proof.
  destruct (post_appends_one_row rt submit w0 (JInt 7) 7%Z "" dataset)
    as (w' & f & Hrun & Htbl & Hname & _); try reflexivity.
  - by vm_compute.
  - constructor.
  - exists w', f. split; [exact Hrun|]. split; [exact Htbl | exact Hname].
Defined.

Lemma post_then_get_witness :
  exists w1 f,
    post rt submit w0 = (Ok tt, w1)
    /\ (exists l w2, get (handler owner []) w1 = (Ok tt, w2)
          /\ last (trace w2) = Some (E_respond (RespSuccess (DList l)))
          /\ (1, f) ∈ l)
    /\ (exists l w2, get (handler stranger []) w1 = (Ok tt, w2)
          /\ last (trace w2) = Some (E_respond (RespSuccess (DList l)))
          /\ 1 ∉ map fst l).
Proof.
  destruct (post_then_get rt submit w0 (JInt 7) 7%Z "" dataset)
    as (w1 & f & Hrun & _ & _ & Hown & Hother); try reflexivity.
  - by vm_compute.
  - constructor.
  - exists w1, f. split; [exact Hrun|]. split.
    + apply (Hown (handler owner [])). reflexivity.
    + apply (Hother (handler stranger [])).
      intros H. apply list_elem_of_singleton in H. discriminate.
Defined.


Lemma watcher_merges_a_copy_witness :
  exists w',
    _await_featurization rt submit (Resolved (VLabel "done")) 0 w1 = (Ok tt, w')
    /\ heap w' !! 0 = Some {| o_session := Some 0; o_id := Some 1; o_val := record |}
    /\ task_id record = Some "save_featureset-11"
    /\ next_ref w' = 2.
Proof.
  destruct (watcher_merges_a_copy rt submit (VLabel "done") 0 w1
              {| o_session := Some 0; o_id := Some 1; o_val := record |} 1)
    as (w' & Hrun & _ & Hcopy); try reflexivity.
  - cbn. lia.
  - destruct Hcopy as (Hold & _ & Hnext); [cbn; discriminate|].
    exists w'. split; [exact Hrun|]. split; [exact Hold|].
    split; [reflexivity | exact Hnext].
Defined.

(** The scenario, submitted twice, and followed to the listing. *)
Lemma post_twice_makes_two_records_witness :
  exists w1 w2 f1 f2,
    post rt submit w0 = (Ok tt, w1)
    /\ post rt submit w1 = (Ok tt, w2)
    /\ table w2 = [(1, f1); (2, f2)]
    /\ file_uri f1 = "/data/features/uuid0_featureset.npz"
    /\ file_uri f2 = "/data/features/uuid1_featureset.npz"
    /\ pool_seq w2 = 24.
Proof.
  destruct (post_twice_makes_two_records rt submit w0 (JInt 7) 7%Z "" dataset)
    as (w1 & w2 & f1 & f2 & Hrun1 & Hrun2 & Htbl & _ & _ & Hu1 & Hu2 & Hpool);
    try reflexivity.
  - by vm_compute.
  - constructor.
  - exists w1, w2, f1, f2. repeat split; assumption.
Defined.

Lemma completed_record_is_listed_witness :
  exists w1 w2 w3 l f,
    post rt submit w0 = (Ok tt, w1)
    /\ _await_featurization rt submit (Resolved (VLabel "done")) 0 (resumed 1 200 w1)
       = (Ok tt, w2)
    /\ get submit w2 = (Ok tt, w3)
    /\ last (trace w3) = Some (E_respond (RespSuccess (DList l)))
    /\ (1, f) ∈ l
    /\ task_id f = None
    /\ finished f = Some 200%Z.
Proof.
  destruct (completed_record_is_listed rt submit w0 (JInt 7) 7%Z "" dataset
              1 200%Z (VLabel "done"))
    as (w1 & w2 & w3 & l & f & Hrun & Hwatch & Hget & Hlast & Hin & Htask & Hfin & _);
    try reflexivity.
  - by vm_compute.
  - constructor.
  - exists w1, w2, w3, l, f. repeat split; assumption.
Defined.

(** The watcher of the scenario, resumed in the session of the record. *)
Lemma watcher_failure_in_own_session_witness :
  exists w',
    _await_featurization rt submit (Failed boom) 0 (resumed 0 200 w1) = (Ok tt, w')
    /\ table_lookup 1 (table w') = None
    /\ actions_of (trace w') =
         [("baselayer/SHOW_NOTIFICATION",
           [("note", "Cannot featurize X: boom"); ("type", "error")]);
          ("cesium/FETCH_FEATURESETS", [])].
Proof.
  destruct (watcher_failure_in_own_session rt submit boom 0 (resumed 0 200 w1)
              {| o_session := Some 0; o_id := Some 1; o_val := record |} 1)
    as (w' & Hrun & Hrow & _ & _ & Hact & _); try reflexivity.
  exists w'. split; [exact Hrun|]. split; [exact Hrow | exact Hact].
Defined.

Lemma record_life_in_one_session_witness :
  exists w1' t1,
    post rt submit w0 = (Ok tt, w1')
    /\ commits_of (trace w1') = [t1]
    /\ job_invariant PENDING (table_lookup 1 t1)
    /\ (exists w2, _await_featurization rt submit (Resolved (VLabel "")) 0
                     (resumed 1 200 w1') = (Ok tt, w2)
                   /\ job_invariant COMPLETED (table_lookup 1 (table w2)))
    /\ (exists w2, _await_featurization rt submit (Failed boom) 0
                     (resumed 0 200 w1') = (Ok tt, w2)
                   /\ job_invariant DELETED (table_lookup 1 (table w2))).
Proof.
  destruct (record_life_in_one_session rt submit w0 (JInt 7) 7%Z "" dataset)
    as (w1' & Hrun & (t1 & Hc1 & Hinv1) & Hwatch); try reflexivity; [by vm_compute|].
  exists w1', t1. split; [exact Hrun|].
  split; [exact Hc1|]. split; [exact Hinv1|]. split.
  - destruct (Hwatch 1 200%Z (Resolved (VLabel ""))) as (w2 & t2 & Hrun2 & _ & -> & Hinv & _);
      [discriminate|].
    exists w2. split; [exact Hrun2 | exact Hinv].
  - destruct (Hwatch 0 200%Z (Failed boom)) as (w2 & t2 & Hrun2 & _ & -> & Hinv & _);
      [reflexivity|].
    exists w2. split; [exact Hrun2 | exact Hinv].
Defined.

End Runs.
